(** * Wallet activity monitoring

    A shallow embedding of the monitoring core of the repository:
    - [src/services/transaction-monitor.js]  (class [TransactionMonitor]),
    - [src/utils/wallet-utils.js]            (class [WalletUtils]),
    - [src/blockchain/sub/listen.js]         (class [Listen]).

    JavaScript objects become records, [Set]/[Map] fields become
    [gset]/[gmap], numbers that go through floating-point arithmetic are
    binary64 floats, and [async] methods become computations in a small
    state-and-exception monad: a [throw] keeps every mutation made before
    it, exactly as a rejected promise does. *)

From Stdlib Require Import ZArith List Floats.
From stdpp Require Import base gmap sets list strings.
From Stdlib Require Import Uint63.
From stdpp Require Import pretty.

#[local] Set Warnings "-inexact-float".
#[local] Open Scope Z_scope.

(** ** JavaScript completions and the state-and-exception monad *)

Module Js.

(** The exceptions that can be raised on the paths modelled below. *)
Inductive Error : Type :=
| TypeError (what : string)       (* property read on [undefined]/[null] *)
| ReferenceError (name : string)  (* identifier bound in no scope *)
| InvalidPublicKey (input : string) (* thrown by [new PublicKey(..)] *)
| RpcError (msg : string).        (* a rejected or throwing RPC call *)

Inductive Completion (A : Type) : Type :=
| Normal (a : A)
| Throw (e : Error).
Arguments Normal {A} a.
Arguments Throw {A} e.

Definition M (S A : Type) : Type := S -> Completion A * S.

Definition ret {S A} (a : A) : M S A := fun s => (Normal a, s).

Definition throw {S A} (e : Error) : M S A := fun s => (Throw e, s).

Definition bind {S A B} (m : M S A) (k : A -> M S B) : M S B :=
  fun s =>
    match m s with
    | (Normal a, s') => k a s'
    | (Throw e, s') => (Throw e, s')
    end.

(** [try { m } catch (error) { h error }] *)
Definition try_catch {S A} (m : M S A) (h : Error -> M S A) : M S A :=
  fun s =>
    match m s with
    | (Normal a, s') => (Normal a, s')
    | (Throw e, s') => h e s'
    end.

Definition gets {S A} (f : S -> A) : M S A := fun s => (Normal (f s), s).

Definition modify {S} (f : S -> S) : M S unit := fun s => (Normal tt, f s).

(** Lifts a pure expression that may throw. *)
Definition eval {S A} (c : Completion A) : M S A := fun s => (c, s).

(** Runs a computation on a component [T] of the state [S]. *)
Definition zoom {S T A} (get : S -> T) (set : T -> S -> S) (m : M T A)
  : M S A :=
  fun s => let (r, t') := m (get s) in (r, set t' s).

End Js.

Import Js.

Notation "'let!' x ':=' c1 'in' c2" := (Js.bind c1 (fun x => c2))
  (at level 10, x name, c1 at level 100, c2 at level 200).
Notation "'do!' c1 'in' c2" := (Js.bind c1 (fun _ => c2))
  (at level 10, c1 at level 100, c2 at level 200).

(** [await Promise.all([m1, m2])] for two calls started in this order: both
    run, and a rejection of the first wins over one of the second. *)
Definition Promise_all2 {S A B} (m1 : M S A) (m2 : M S B) : M S (A * B) :=
  fun s =>
    let (r1, s1) := m1 s in
    let (r2, s2) := m2 s1 in
    match r1, r2 with
    | Normal a, Normal b => (Normal (a, b), s2)
    | Throw e, _ => (Throw e, s2)
    | Normal _, Throw e => (Throw e, s2)
    end.

(** A JavaScript number holding the integer [z]; exact for the values of
    [Date.now()]. *)
Definition number_of_Z (z : Z) : float :=
  if z <? 0 then PrimFloat.opp (PrimFloat.of_uint63 (Uint63.of_Z (- z)))
  else PrimFloat.of_uint63 (Uint63.of_Z z).

(** ** Data exchanged with the chain client *)

(** A [PublicKey] is identified with its canonical base58 text; [equals]
    compares the 32 bytes, hence the texts. *)
Definition PublicKey : Type := string.

Definition PublicKey_equals (a b : PublicKey) : bool := bool_decide (a = b).

(** [TOKEN_PROGRAM_ID] of [@solana/spl-token]. *)
Definition TOKEN_PROGRAM_ID : PublicKey :=
  "TokenkegQfeZyiNwAJbNbGKPFXCWuBvf9Ss623VQ5DA".

(** [SystemProgram.programId] of [@solana/web3.js]. *)
Definition SystemProgram_programId : PublicKey :=
  "11111111111111111111111111111111".

(** [LAMPORTS_PER_SOL] of [@solana/web3.js]. *)
Definition LAMPORTS_PER_SOL : float := 1000000000%float.

Record AccountInfo : Type := mkAccountInfo {
  lamports : float;
  owner : PublicKey;
  executable : bool
}.

(** What [getParsedTransaction] resolves to.  A field is [None] when
    the property is [undefined] in the response. *)
Record Instruction : Type := mkInstruction {
  programId : option PublicKey
}.

Record TransactionMeta : Type := mkMeta {
  preBalances : option (list float);
  postBalances : option (list float)
}.

Record ParsedTransaction : Type := mkParsedTransaction {
  meta : option TransactionMeta;
  (* [tx.transaction.message.instructions]; [None] when a link of the
     chain is missing *)
  instructions : option (list Instruction)
}.

(** An element of [getParsedProgramAccounts]'s result;
    [parsed_info_owner] is [account.account.data.parsed.info.owner], and
    [parsed_info] is [false] when [account.account.data.parsed.info]
    cannot be read. *)
Record TokenAccount : Type := mkTokenAccount {
  parsed_info : bool;
  parsed_info_owner : string
}.

(** The ids returned by [onAccountChange] and [onLogs]. *)
Definition Handle : Type := Z.

(** ** The host: web3.js connection and clock

    The network is a state machine of an arbitrary state type [Net]; every
    call may answer, throw and change the network state. *)
Record Host (Net : Type) : Type := mkHost {
  (* [new PublicKey(s)] returns normally *)
  validKey : string -> bool;
  (* [Date.now()], an integer number of milliseconds *)
  Date_now : Net -> Z;
  getAccountInfo : PublicKey -> M Net (option AccountInfo);
  getBalance : PublicKey -> M Net float;
  getParsedTransaction : string -> M Net (option ParsedTransaction);
  getParsedProgramAccounts : PublicKey -> string -> M Net (list TokenAccount);
  onAccountChange : PublicKey -> M Net Handle;
  onLogs : PublicKey -> M Net Handle;
  removeAccountChangeListener : Handle -> M Net unit;
  removeOnLogsListener : Handle -> M Net unit
}.
Arguments validKey {Net} _ _.
Arguments Date_now {Net} _ _.
Arguments getAccountInfo {Net} _ _ _.
Arguments getBalance {Net} _ _ _.
Arguments getParsedTransaction {Net} _ _ _.
Arguments getParsedProgramAccounts {Net} _ _ _ _.
Arguments onAccountChange {Net} _ _ _.
Arguments onLogs {Net} _ _ _.
Arguments removeAccountChangeListener {Net} _ _ _.
Arguments removeOnLogsListener {Net} _ _ _.

(** [new PublicKey(s)] *)
Definition PublicKey_new {Net} (host : Host Net) (s : string)
  : Completion PublicKey :=
  if validKey host s then Normal s else Throw (InvalidPublicKey s).

(** ** Events and console *)

Record EventAccountInfo : Type := mkEventAccountInfo {
  ev_lamports : float;
  ev_owner : string;
  ev_executable : bool
}.

(** The objects passed on the ['walletActivity'] channel. *)
Record Event : Type := mkEvent {
  type : string;
  wallet : string;
  timestamp : Z;
  slot : Z;
  signature : string;
  accountInfo : option EventAccountInfo
}.

Inductive LogLine : Type :=
| console_log_line (msg : string)
| console_error_line (msg : string) (error : Error).

(** ** The objects of the program

    [SubscriptionIds] is the object stored in
    [TransactionMonitor.subscriptions]. *)
Record SubscriptionIds : Type := mkSubscriptionIds {
  account : Handle;
  signature_id : Handle
}.

(** The mutable fields of the [Listen] object and of the
    [TransactionMonitor] it owns, the network both talk to, the console
    and the events emitted on ['significantActivity'].  Only membership of
    the two [Set]s is modelled, not their iteration order. *)
Record World (Net : Type) : Type := mkWorld {
  net : Net;
  wallets : gset string;
  monitoredWallets : gset string;
  subscriptions : gmap string SubscriptionIds;
  lastActivity : gmap string Z;
  console : list LogLine;
  significantActivity : list Event
}.
Arguments mkWorld {Net}.
Arguments net {Net} _.
Arguments wallets {Net} _.
Arguments monitoredWallets {Net} _.
Arguments subscriptions {Net} _.
Arguments lastActivity {Net} _.
Arguments console {Net} _.
Arguments significantActivity {Net} _.

Section WorldUpdates.
Context {Net : Type}.
Implicit Type w : World Net.

Definition set_net (n : Net) w : World Net :=
  mkWorld n (wallets w) (monitoredWallets w) (subscriptions w)
    (lastActivity w) (console w) (significantActivity w).

Definition set_wallets (s : gset string) w : World Net :=
  mkWorld (net w) s (monitoredWallets w) (subscriptions w)
    (lastActivity w) (console w) (significantActivity w).

Definition set_monitoredWallets (s : gset string) w : World Net :=
  mkWorld (net w) (wallets w) s (subscriptions w)
    (lastActivity w) (console w) (significantActivity w).

Definition set_subscriptions (m : gmap string SubscriptionIds) w
  : World Net :=
  mkWorld (net w) (wallets w) (monitoredWallets w) m
    (lastActivity w) (console w) (significantActivity w).

Definition set_lastActivity (m : gmap string Z) w : World Net :=
  mkWorld (net w) (wallets w) (monitoredWallets w) (subscriptions w)
    m (console w) (significantActivity w).

Definition set_console (c : list LogLine) w : World Net :=
  mkWorld (net w) (wallets w) (monitoredWallets w) (subscriptions w)
    (lastActivity w) c (significantActivity w).

Definition set_significantActivity (l : list Event) w : World Net :=
  mkWorld (net w) (wallets w) (monitoredWallets w) (subscriptions w)
    (lastActivity w) (console w) l.

(** A call on [this.connection]. *)
Definition rpc {A} (m : M Net A) : M (World Net) A :=
  zoom net set_net m.

Definition console_log (msg : string) : M (World Net) unit :=
  modify (fun w => set_console (console w ++ [console_log_line msg]) w).

Definition console_error (msg : string) (e : Error) : M (World Net) unit :=
  modify (fun w => set_console (console w ++ [console_error_line msg e]) w).

End WorldUpdates.

(** ** Notifications, and the history calls of the connection *)

(** An element of [getSignaturesForAddress]'s result; [blockTime] is
    [None] when the response carries [null]. *)
Record SignatureInfo : Type := mkSignatureInfo {
  info_signature : string;
  blockTime : option float
}.

(** [getParsedTransaction]'s result as [TransactionMonitor] reads it:
    [raw_meta] is [transaction.meta] with [err === null] and [fee];
    [raw_instructions] is [None] when [transaction.transaction] is missing,
    [Some None] when [message.instructions] cannot be read under it. *)
Record RawMeta : Type := mkRawMeta {
  err_is_null : bool;
  meta_fee : float
}.

Record RawTransaction : Type := mkRawTransaction {
  raw_meta : option RawMeta;
  raw_instructions : option (option (list Instruction))
}.

(** The [transaction] property of a ['transaction'] event. *)
Record TransactionSummary : Type := mkSummary {
  summary_type : string;
  successful : bool;
  fee : float;
  logs : list string
}.

(** The whole object emitted on ['walletActivity']: the fields [Listen]
    reads, the [transaction] property of a transaction event and the
    [accountInfo.rentEpoch] of an account-change event. *)
Record WalletActivity : Type := mkActivity {
  activity : Event;
  transaction : option TransactionSummary;
  rentEpoch : option float
}.

(** The two history calls, with the [limit] option of the first. *)
Record HistoryRpc (Net : Type) : Type := mkHistoryRpc {
  getSignaturesForAddress : PublicKey -> Z -> M Net (list SignatureInfo);
  getParsedTransactionWithMeta : string -> M Net (option RawTransaction)
}.
Arguments getSignaturesForAddress {Net} _ _ _ _.
Arguments getParsedTransactionWithMeta {Net} _ _ _.

(** ** src/services/transaction-monitor.js *)

Module TransactionMonitor.
Section WithHost.
Context {Net : Type} (host : Host Net).

(** The body of the [try] block of [startMonitoring]. *)
Definition startMonitoring_try (wallet : string) : M (World Net) unit :=
  let! publicKey := eval (PublicKey_new host wallet) in
  let! has := gets (fun w => bool_decide (wallet ∈ monitoredWallets w)) in
  if (has : bool) then
    console_log ("Already monitoring wallet: " +:+ wallet)
  else
    let! accountSubscriptionId := rpc (onAccountChange host publicKey) in
    let! signatureSubscriptionId := rpc (onLogs host publicKey) in
    do! modify (fun w =>
          set_subscriptions
            (<[wallet :=
                 mkSubscriptionIds accountSubscriptionId
                   signatureSubscriptionId]> (subscriptions w)) w) in
    do! modify (fun w =>
          set_monitoredWallets ({[wallet]} ∪ monitoredWallets w) w) in
    do! modify (fun w =>
          set_lastActivity
            (<[wallet := Date_now host (net w)]> (lastActivity w)) w) in
    console_log ("Started monitoring wallet: " +:+ wallet).

Definition startMonitoring (wallet : string) : M (World Net) unit :=
  try_catch (startMonitoring_try wallet)
    (fun error =>
       console_error
         ("Error starting monitoring for wallet " +:+ wallet +:+ ":") error).

(** The body of the [try] block of [stopMonitoring]. *)
Definition stopMonitoring_try (wallet : string) : M (World Net) unit :=
  let! subscriptionIds := gets (fun w => subscriptions w !! wallet) in
  match subscriptionIds with
  | Some ids =>
      do! rpc (removeAccountChangeListener host (account ids)) in
      do! rpc (removeOnLogsListener host (signature_id ids)) in
      do! modify (fun w =>
            set_subscriptions (delete wallet (subscriptions w)) w) in
      do! modify (fun w =>
            set_monitoredWallets (monitoredWallets w ∖ {[wallet]}) w) in
      do! modify (fun w =>
            set_lastActivity (delete wallet (lastActivity w)) w) in
      console_log ("Stopped monitoring wallet: " +:+ wallet)
  | None => ret tt
  end.

Definition stopMonitoring (wallet : string) : M (World Net) unit :=
  try_catch (stopMonitoring_try wallet)
    (fun error =>
       console_error
         ("Error stopping monitoring for wallet " +:+ wallet +:+ ":") error).

(** [24 * 60 * 60 * 1000] *)
Definition inactiveThreshold : Z := 24 * 60 * 60 * 1000.

(** [isWalletActive]: [!lastActivityTime] holds for a missing entry and
    for the number [0]. *)
Definition isWalletActive (wallet : string) (w : World Net) : bool :=
  match lastActivity w !! wallet with
  | None => false
  | Some lastActivityTime =>
      if lastActivityTime =? 0 then false
      else Date_now host (net w) - lastActivityTime <? inactiveThreshold
  end.

(** [getMonitoredWallets], as the set of the returned array. *)
Definition getMonitoredWallets (w : World Net) : gset string :=
  monitoredWallets w.

Definition getActiveWallets (w : World Net) : gset string :=
  filter (fun wallet => isWalletActive wallet w = true)
    (getMonitoredWallets w).

(** [getTransactionType] *)
Definition getTransactionType (transaction : RawTransaction)
  : Completion string :=
  match raw_meta transaction, raw_instructions transaction with
  | None, _ => Normal "unknown"
  | Some _, None => Normal "unknown"
  | Some _, Some None =>
      Throw (TypeError "transaction.transaction.message.instructions")
  | Some _, Some (Some []) => Normal "unknown"
  | Some _, Some (Some (first :: _)) =>
      match programId first with
      | None => Throw (TypeError "instructions[0].programId.toString")
      | Some p =>
          if bool_decide (p = "TokenkegQfeZyiNwAJbNbGKPFXCWuBvf9Ss623VQ5DA")
          then Normal "token_transaction"
          else if bool_decide (p = "11111111111111111111111111111111")
          then Normal "system_transaction"
          else Normal "other"
      end
  end.

(** [this.emit('walletActivity', event)]: the listeners registered with
    [on] are called in turn; a listener that raises stops the round. *)
Fixpoint emit_walletActivity
    (listeners : list (WalletActivity -> M (World Net) unit))
    (event : WalletActivity) : M (World Net) unit :=
  match listeners with
  | [] => ret tt
  | listener :: rest =>
      do! listener event in emit_walletActivity rest event
  end.

(** [handleAccountChange(wallet, accountInfo, context)], with
    [accountInfo.rentEpoch] and [context.slot] as arguments.  The event has
    no [signature] property: the field of [Event], read for transaction
    events only, holds the empty text. *)
Definition handleAccountChange
    (listeners : list (WalletActivity -> M (World Net) unit))
    (wallet : string) (accountInfo : AccountInfo)
    (accountInfo_rentEpoch : option float) (context_slot : Z)
  : M (World Net) unit :=
  let! now := gets (fun w => Date_now host (net w)) in
  let event :=
    mkActivity
      (mkEvent "account_change" wallet now context_slot ""
         (Some (mkEventAccountInfo (lamports accountInfo) (owner accountInfo)
                  (executable accountInfo))))
      None accountInfo_rentEpoch in
  do! modify (fun w =>
        set_lastActivity
          (<[wallet := Date_now host (net w)]> (lastActivity w)) w) in
  emit_walletActivity listeners event.

(** The body of the [try] block of [handleNewTransaction], with
    [logs.logs] and [context.slot] as arguments. *)
Definition handleNewTransaction_try (history : HistoryRpc Net)
    (listeners : list (WalletActivity -> M (World Net) unit))
    (wallet : string) (logs_logs : list string) (context_slot : Z)
  : M (World Net) unit :=
  let! publicKey := eval (PublicKey_new host wallet) in
  let! signatures := rpc (getSignaturesForAddress history publicKey 1) in
  match signatures with
  | [] => ret tt
  | first :: _ =>
      let! transaction :=
        rpc (getParsedTransactionWithMeta history (info_signature first)) in
      match transaction with
      | None => ret tt
      | Some transaction =>
          let! now := gets (fun w => Date_now host (net w)) in
          let! transactionType := eval (getTransactionType transaction) in
          let event :=
            mkActivity
              (mkEvent "transaction" wallet now context_slot
                 (info_signature first) None)
              (Some (mkSummary transactionType
                       (match raw_meta transaction with
                        | Some m => err_is_null m
                        | None => false
                        end)
                       (match raw_meta transaction with
                        | Some m => meta_fee m
                        | None => 0%float
                        end)
                       logs_logs))
              None in
          do! modify (fun w =>
                set_lastActivity
                  (<[wallet := Date_now host (net w)]> (lastActivity w)) w) in
          emit_walletActivity listeners event
      end
  end.

Definition handleNewTransaction (history : HistoryRpc Net)
    (listeners : list (WalletActivity -> M (World Net) unit))
    (wallet : string) (logs_logs : list string) (context_slot : Z)
  : M (World Net) unit :=
  try_catch
    (handleNewTransaction_try history listeners wallet logs_logs context_slot)
    (fun error =>
       console_error
         ("Error handling transaction for wallet " +:+ wallet +:+ ":") error).

(** The [for ... of this.monitoredWallets] loop of [cleanup]; [order] is
    what is left of the iteration order of the set, which the world does
    not record. *)
Fixpoint cleanup_loop (order : list string) : M (World Net) unit :=
  match order with
  | [] => ret tt
  | wallet :: rest =>
      let! active := gets (isWalletActive wallet) in
      if (active : bool) then cleanup_loop rest
      else do! stopMonitoring wallet in cleanup_loop rest
  end.

Definition cleanup (order : list string) : M (World Net) unit :=
  cleanup_loop order.

End WithHost.
End TransactionMonitor.

(** ** src/utils/wallet-utils.js *)

Module WalletUtils.

(** The bindings of the free identifiers of the module that come from
    [@solana/web3.js].  Line 1 of the file destructures [PublicKey] and
    [LAMPORTS_PER_SOL] only; [SystemProgram] is read at line 17. *)
Record ModuleScope : Type := mkScope {
  SystemProgram : option PublicKey  (* its [programId], when bound *)
}.

(** The scope of the module as the file is written. *)
Definition source_scope : ModuleScope := mkScope None.

(** Evaluation of the expression [SystemProgram.programId]. *)
Definition SystemProgram_programId_expr (scope : ModuleScope)
  : Completion PublicKey :=
  match SystemProgram scope with
  | Some programId => Normal programId
  | None => Throw (ReferenceError "SystemProgram")
  end.

Section WithHost.
Context {Net : Type} (host : Host Net).

(** The body of the [try] block of [isValidWallet]. *)
Definition isValidWallet_try (scope : ModuleScope) (address : string)
  : M Net bool :=
  let! publicKey := eval (PublicKey_new host address) in
  let! accountInfo := getAccountInfo host publicKey in
  match accountInfo with
  | None => ret false
  | Some info =>
      let! system := eval (SystemProgram_programId_expr scope) in
      if PublicKey_equals (owner info) system then
        let! balance := getBalance host publicKey in
        ret (PrimFloat.ltb (0.01 * LAMPORTS_PER_SOL)%float balance)
      else ret false
  end.

Definition isValidWallet (scope : ModuleScope) (address : string)
  : M Net bool :=
  try_catch (isValidWallet_try scope address) (fun _ => ret false).

(** The body of the [try] block of [isActiveTrader]. *)
Definition isActiveTrader_try (history : HistoryRpc Net) (address : string)
    (minTransactions : Z) : M Net bool :=
  let! publicKey := eval (PublicKey_new host address) in
  let! signatures :=
    getSignaturesForAddress history publicKey minTransactions in
  if Z.of_nat (length signatures) <? minTransactions then ret false
  else
    match last signatures with
    | None => throw (TypeError "oldestTx.blockTime")
    | Some oldestTx =>
        let! now :=
          gets (fun n => (number_of_Z (Date_now host n) / 1000)%float) in
        let txAge :=
          (now - match blockTime oldestTx with
                 | Some t => t
                 | None => 0
                 end)%float in
        ret (PrimFloat.leb txAge (30 * 24 * 60 * 60)%float)
    end.

Definition isActiveTrader (history : HistoryRpc Net) (address : string)
    (minTransactions : Z) : M Net bool :=
  try_catch (isActiveTrader_try history address minTransactions)
    (fun _ => ret false).

End WithHost.

(** [preBalances[i]]/[postBalances[i]]: an index past the end reads
    [undefined], which arithmetic turns into [NaN]. *)
Definition number_at (l : list float) (i : nat) : float :=
  nth i l PrimFloat.nan.

(** The [for] loop of [calculateTransactionValue], from index [i]. *)
Fixpoint balance_loop (pre post : list float) (i : nat) (rest : list float)
  (value : float) : float :=
  match rest with
  | [] => value
  | _ :: rest' =>
      let balanceChange :=
        ((number_at post i - number_at pre i) / LAMPORTS_PER_SOL)%float in
      balance_loop pre post (S i) rest'
        (value + PrimFloat.abs balanceChange)%float
  end.

Definition calculateTransactionValue (transaction : ParsedTransaction)
  : Completion float :=
  match meta transaction with
  | None => Normal 0%float
  | Some m =>
      match preBalances m with
      | None => Throw (TypeError "preBalances.length")
      | Some pre =>
          match pre, postBalances m with
          | [], _ => Normal 0%float
          | _ :: _, None => Throw (TypeError "postBalances[i]")
          | _ :: _, Some post => Normal (balance_loop pre post 0 pre 0%float)
          end
      end
  end.

(** The [options] argument of [filterWallets]; a property that is absent
    is [None] and takes its default in the destructuring. *)
Record FilterOptions : Type := mkOptions {
  minBalance : option float;
  minTransactions : option Z;
  activeOnly : option bool
}.

Section Filter.
Context {Net : Type} (host : Host Net) (history : HistoryRpc Net).

(** One round of the [for ... of wallets] loop of [filterWallets]: the
    [try] statement, run for [wallet]; [validWallets] is the array built so
    far and the result is the array after the round. *)
Definition filterWallets_round (minBalance : float) (minTransactions : Z)
    (activeOnly : bool) (wallet : string) (validWallets : list string)
  : M (World Net) (list string) :=
  try_catch
    (let! publicKey := eval (PublicKey_new host wallet) in
     let! both :=
       rpc (Promise_all2 (getBalance host publicKey)
              (if activeOnly
               then isActiveTrader host history wallet minTransactions
               else ret true)) in
     if PrimFloat.leb (minBalance * LAMPORTS_PER_SOL)%float (fst both)
        && snd both
     then ret (validWallets ++ [wallet])
     else ret validWallets)
    (fun error =>
       do! console_error ("Error filtering wallet " +:+ wallet +:+ ":")
             error in
       ret validWallets).

Fixpoint filterWallets_loop (minBalance : float) (minTransactions : Z)
    (activeOnly : bool) (wallets : list string) (validWallets : list string)
  : M (World Net) (list string) :=
  match wallets with
  | [] => ret validWallets
  | wallet :: rest =>
      let! validWallets' :=
        filterWallets_round minBalance minTransactions activeOnly wallet
          validWallets in
      filterWallets_loop minBalance minTransactions activeOnly rest
        validWallets'
  end.

Definition filterWallets (wallets : list string) (options : FilterOptions)
  : M (World Net) (list string) :=
  filterWallets_loop
    (default 0.01%float (minBalance options))
    (default 5 (minTransactions options))
    (default true (activeOnly options))
    wallets [].

End Filter.

End WalletUtils.

(** ** src/blockchain/sub/listen.js *)

Module Listen.
Section WithHost.
Context {Net : Type} (host : Host Net).

(** [this.walletUtils.isValidWallet]: the wallet-validity collaborator,
    which holds nothing but the connection. *)
Variable isValidWallet : string -> M Net bool.

(** [instructions.some(ix => ix.programId.equals(TOKEN_PROGRAM_ID))] *)
Fixpoint some_token_instruction (ixs : list Instruction) : Completion bool :=
  match ixs with
  | [] => Normal false
  | ix :: rest =>
      match programId ix with
      | None => Throw (TypeError "ix.programId.equals")
      | Some p =>
          if PublicKey_equals p TOKEN_PROGRAM_ID then Normal true
          else some_token_instruction rest
      end
  end.

(** The body of the [try] block of [isSignificantTransaction]. *)
Definition isSignificantTransaction_try (event : Event)
  : M (World Net) bool :=
  let! tx := rpc (getParsedTransaction host (signature event)) in
  match tx with
  | None => ret false
  | Some tx =>
      let! isTokenTransfer :=
        eval (match instructions tx with
              | None => Throw (TypeError "tx.transaction.message.instructions")
              | Some ixs => some_token_instruction ixs
              end) in
      if (isTokenTransfer : bool) then
        let! value := eval (WalletUtils.calculateTransactionValue tx) in
        ret (PrimFloat.ltb 1%float value)
      else ret false
  end.

Definition isSignificantTransaction (event : Event) : M (World Net) bool :=
  try_catch (isSignificantTransaction_try event)
    (fun error =>
       do! console_error "Error checking transaction significance:" error in
       ret false).

(** The body of the [try] block of [isSignificantAccountChange]. *)
Definition isSignificantAccountChange_try (event : Event)
  : M (World Net) bool :=
  match accountInfo event with
  | None => throw (TypeError "event.accountInfo.lamports")
  | Some info =>
      let balanceChange := (ev_lamports info / 1e9)%float in
      ret (PrimFloat.ltb 1%float (PrimFloat.abs balanceChange))
  end.

Definition isSignificantAccountChange (event : Event)
  : M (World Net) bool :=
  try_catch (isSignificantAccountChange_try event)
    (fun error =>
       do! console_error "Error checking account change significance:"
             error in
       ret false).

(** [this.emit('significantActivity', event)] *)
Definition emit_significantActivity (event : Event) : M (World Net) unit :=
  modify (fun w =>
    set_significantActivity (significantActivity w ++ [event]) w).

Definition handleWalletActivity (event : Event) : M (World Net) unit :=
  try_catch
    (if bool_decide (type event = "transaction") then
       let! isSignificant := isSignificantTransaction event in
       if (isSignificant : bool) then emit_significantActivity event
       else ret tt
     else if bool_decide (type event = "account_change") then
       let! isSignificant := isSignificantAccountChange event in
       if (isSignificant : bool) then emit_significantActivity event
       else ret tt
     else ret tt)
    (fun error => console_error "Error handling wallet activity:" error).

Definition addWallet (wallet : string) : M (World Net) bool :=
  try_catch
    (let! isValid := rpc (isValidWallet wallet) in
     if negb isValid then
       do! console_log ("Invalid wallet address: " +:+ wallet) in
       ret false
     else
       do! modify (fun w => set_wallets ({[wallet]} ∪ wallets w) w) in
       do! TransactionMonitor.startMonitoring host wallet in
       ret true)
    (fun error =>
       do! console_error ("Error adding wallet " +:+ wallet +:+ ":") error in
       ret false).

Definition removeWallet (wallet : string) : M (World Net) bool :=
  try_catch
    (do! modify (fun w => set_wallets (wallets w ∖ {[wallet]}) w) in
     do! TransactionMonitor.stopMonitoring host wallet in
     ret true)
    (fun error =>
       do! console_error ("Error removing wallet " +:+ wallet +:+ ":")
             error in
       ret false).

(** The [for ... of tokenAccounts.slice(0, 100)] loop of
    [__get_last_100]; [holders] is the array built so far. *)
Fixpoint holders_loop (accounts : list TokenAccount) (holders : list string)
  : M (World Net) (list string) :=
  match accounts with
  | [] => ret holders
  | account :: rest =>
      if parsed_info account then
        let walletAddress := parsed_info_owner account in
        let! isValid := rpc (isValidWallet walletAddress) in
        if (isValid : bool) then
          let holders' := holders ++ [walletAddress] in
          let! _added := addWallet walletAddress in
          holders_loop rest holders'
        else holders_loop rest holders
      else throw (TypeError "account.account.data.parsed.info")
  end.

Definition __get_last_100 (tokenAddress : string)
  : M (World Net) (list string) :=
  try_catch
    (let! tokenAccounts :=
       rpc (getParsedProgramAccounts host TOKEN_PROGRAM_ID tokenAddress) in
     holders_loop (take 100 tokenAccounts) [])
    (fun error =>
       do! console_error "Error fetching token holders:" error in
       ret []).

Definition getActiveWallets (w : World Net) : gset string :=
  TransactionMonitor.getActiveWallets host w.

(** The listener [setupEventHandlers] registers on ['walletActivity']. *)
Definition walletActivity_listener (event : WalletActivity)
  : M (World Net) unit :=
  handleWalletActivity (activity event).

(** [cleanup]; [order] is the iteration order of the monitor's set. *)
Definition cleanup (order : list string) : M (World Net) unit :=
  try_catch
    (do! TransactionMonitor.cleanup host order in
     let! activeWallets := gets getActiveWallets in
     do! modify (set_wallets activeWallets) in
     let! size := gets (fun w => size (wallets w)) in
     console_log
       ("Cleanup completed. Monitoring " +:+ pretty size
        +:+ " active wallets"))
    (fun error => console_error "Error during cleanup:" error).

End WithHost.

(** [new Listen(config)]: [this.walletUtils = new WalletUtils(..)], the
    class of wallet-utils.js with the scope that file has. *)
Definition walletUtils {Net} (host : Host Net) : string -> M Net bool :=
  WalletUtils.isValidWallet host WalletUtils.source_scope.

End Listen.

(** ** Properties of the registry, in the words of the specification *)

Section Registry.
Context {Net : Type}.


(** The monitored set, the subscriptions map and the last-activity map
    have the same addresses as keys. *)
Definition keys_agree (w : World Net) : Prop :=
  dom (subscriptions w) = monitoredWallets w
  /\ dom (lastActivity w) = monitoredWallets w.

(** No bookkeeping at all is left for an address. *)
Definition no_bookkeeping (wallet : string) (w : World Net) : Prop :=
  subscriptions w !! wallet = None
  /\ (wallet ∉ monitoredWallets w)
  /\ lastActivity w !! wallet = None.

(** The three collections of the registry are the same in two worlds. *)
Definition same_registry (w w' : World Net) : Prop :=
  monitoredWallets w' = monitoredWallets w
  /\ subscriptions w' = subscriptions w
  /\ lastActivity w' = lastActivity w.

(** [isActive(address, ttl)] as the specification words it: an entry
    exists and [now - LastActivity <= ttl]. *)
Definition isActive_spec (host : Host Net) (ttl : Z) (wallet : string)
  (w : World Net) : Prop :=
  exists t, lastActivity w !! wallet = Some t
            /\ Date_now host (net w) - t <= ttl.

(** [classify(event)] of the specification: the classifier that
    [handleWalletActivity] runs for an event of type ['transaction'], and
    the one it runs for ['account_change']; [classify_try] is the [try]
    block of that classifier. *)
Definition classify (host : Host Net) (event : Event)
  : M (World Net) bool :=
  if bool_decide (type event = "transaction")
  then Listen.isSignificantTransaction host event
  else Listen.isSignificantAccountChange event.

Definition classify_try (host : Host Net) (event : Event)
  : M (World Net) bool :=
  if bool_decide (type event = "transaction")
  then Listen.isSignificantTransaction_try host event
  else Listen.isSignificantAccountChange_try event.

(** The calls of a client of the registry. *)
Inductive RegistryCall : Type :=
| CallStart (wallet : string)
| CallStop (wallet : string).

Definition run_call (host : Host Net) (c : RegistryCall) (w : World Net)
  : World Net :=
  match c with
  | CallStart wallet => snd (TransactionMonitor.startMonitoring host wallet w)
  | CallStop wallet => snd (TransactionMonitor.stopMonitoring host wallet w)
  end.

(** A sequence of completed calls, the earliest first. *)
Definition run_calls (host : Host Net) (cs : list RegistryCall)
  (w : World Net) : World Net :=
  fold_left (fun w c => run_call host c w) cs w.

(** The address a call is about. *)
Definition call_wallet (c : RegistryCall) : string :=
  match c with
  | CallStart wallet => wallet
  | CallStop wallet => wallet
  end.

(** The chain client releases every handle it is asked to release, and a
    release does not move the clock. *)
Definition releases_reliable (host : Host Net) : Prop :=
  forall h n,
    fst (removeAccountChangeListener host h n) = Normal tt
    /\ fst (removeOnLogsListener host h n) = Normal tt
    /\ Date_now host (snd (removeAccountChangeListener host h n))
       = Date_now host n
    /\ Date_now host (snd (removeOnLogsListener host h n)) = Date_now host n.

(** The world in which [addWallet] reaches [startMonitoring] once the
    validity collaborator [isValidWallet] has answered true. *)
Definition after_validation (isValidWallet : string -> M Net bool)
  (wallet : string) (w : World Net) : World Net :=
  set_wallets ({[wallet]} ∪ wallets w)
    (set_net (snd (isValidWallet wallet (net w))) w).

(** The handles the subscribe step of [startMonitoring] obtains from
    network state [n], when both subscriptions open. *)
Definition opened_handles (host : Host Net) (wallet : string) (n : Net)
  : option SubscriptionIds :=
  match onAccountChange host wallet n with
  | (Normal h1, n1) =>
      match onLogs host wallet n1 with
      | (Normal h2, _) => Some (mkSubscriptionIds h1 h2)
      | (Throw _, _) => None
      end
  | (Throw _, _) => None
  end.

(** The subscribe step of [startMonitoring] raises nothing from network
    state [n]: the address is a public key and both subscriptions open. *)
Definition subscribe_succeeds (host : Host Net) (wallet : string) (n : Net)
  : Prop :=
  validKey host wallet = true /\ is_Some (opened_handles host wallet n).






End Registry.

(** ** A scripted network, for concrete runs *)

Module Sim.

Record Net : Type := mkNet {
  clock : Z;
  next_id : Handle;
  chain_accounts : gmap string AccountInfo;
  chain_transactions : gmap string ParsedTransaction;
  token_accounts : list TokenAccount;
  subscribe_fails : bool;
  release_fails : list Handle;  (* the handles whose release raises *)
  fetch_fails : bool;
  live : list Handle
}.

Definition with_next (n : Net) (l : list Handle) : Net :=
  mkNet (clock n) (next_id n + 1) (chain_accounts n) (chain_transactions n)
    (token_accounts n) (subscribe_fails n) (release_fails n) (fetch_fails n)
    l.

Definition with_live (n : Net) (l : list Handle) : Net :=
  mkNet (clock n) (next_id n) (chain_accounts n) (chain_transactions n)
    (token_accounts n) (subscribe_fails n) (release_fails n) (fetch_fails n)
    l.

Definition open_subscription : M Net Handle :=
  fun n =>
    if subscribe_fails n then (Throw (RpcError "subscribe"), n)
    else (Normal (next_id n), with_next n (live n ++ [next_id n])).

Definition close_subscription (h : Handle) : M Net unit :=
  fun n =>
    if bool_decide (h ∈ release_fails n)
    then (Throw (RpcError "unsubscribe"), n)
    else (Normal tt, with_live n (filter (fun x => negb (x =? h)) (live n))).

Definition fetch {A} (f : Net -> A) : M Net A :=
  fun n =>
    if fetch_fails n then (Throw (RpcError "fetch"), n) else (Normal (f n), n).

Definition host : Host Net :=
  mkHost Net
    (fun s => negb (bool_decide (s = "")))
    clock
    (fun a => fetch (fun n => chain_accounts n !! a))
    (fun a => fetch (fun n =>
       match chain_accounts n !! a with
       | Some info => lamports info
       | None => 0%float
       end))
    (fun sig => fetch (fun n => chain_transactions n !! sig))
    (fun _ _ => fetch token_accounts)
    (fun _ => open_subscription)
    (fun _ => open_subscription)
    close_subscription
    close_subscription.

(** A quiet network at time [10^12] ms that knows two accounts: [W1] is
    owned by the system program and holds 0.02 SOL, [W2] is owned by the
    token program. *)
Definition W1 : string := "W1".
Definition W2 : string := "W2".

Definition net0 : Net :=
  mkNet 1000000000000 1
    (<[W1 := mkAccountInfo 20000000%float SystemProgram_programId false]>
       (<[W2 := mkAccountInfo 20000000%float TOKEN_PROGRAM_ID false]> ∅))
    ∅ [] false [] false [].

Definition world_of (n : Net) : World Net := mkWorld n ∅ ∅ ∅ ∅ [] [].

Definition world0 : World Net := world_of net0.

(** The same network, refusing to open subscriptions. *)
Definition net_no_subscribe : Net :=
  mkNet (clock net0) (next_id net0) (chain_accounts net0)
    (chain_transactions net0) (token_accounts net0) true [] false [].

(** The same network, failing every fetch. *)
Definition net_no_fetch : Net :=
  mkNet (clock net0) (next_id net0) (chain_accounts net0)
    (chain_transactions net0) (token_accounts net0) false [] true [].

(** [W1] under monitoring since time [10^12] ms, with handles 1 and 2. *)
Definition world_monitoring : World Net :=
  snd (TransactionMonitor.startMonitoring host W1 world0).

(** The same world when the network refuses to release handle 1, the
    account-change subscription of [W1], and nothing else. *)
Definition world_release_fails : World Net :=
  let n := net world_monitoring in
  set_net
    (mkNet (clock n) (next_id n) (chain_accounts n) (chain_transactions n)
       (token_accounts n) false [1] false (live n))
    world_monitoring.

(** The same world exactly 24 hours later. *)
Definition world_day_later : World Net :=
  let n := net world_monitoring in
  set_net
    (mkNet (clock n + 86400000) (next_id n) (chain_accounts n)
       (chain_transactions n) (token_accounts n) false [] false (live n))
    world_monitoring.

(** A quiet network reporting 150 holder accounts: [W1], [W2], [W1],
    then 97 accounts owned by [W2] and, past the 100th, 50 accounts owned
    by [W1]. *)
Definition net_many_holders : Net :=
  mkNet (clock net0) (next_id net0) (chain_accounts net0)
    (chain_transactions net0)
    (mkTokenAccount true W1 :: mkTokenAccount true W2
       :: mkTokenAccount true W1
       :: replicate 97 (mkTokenAccount true W2)
       ++ replicate 50 (mkTokenAccount true W1))
    false [] false [].

(** A transaction event for [W1]. *)
Definition transaction_event : Event :=
  mkEvent "transaction" W1 1000000000000 7 "sig1" None.

(** A second transaction event, and two account-change events reporting
    0.5 SOL and 2 SOL. *)
Definition malformed_event : Event :=
  mkEvent "transaction" W1 1000000000000 8 "sig2" None.

Definition account_change_event (lamports : float) : Event :=
  mkEvent "account_change" W1 1000000000000 9 ""
    (Some (mkEventAccountInfo lamports SystemProgram_programId false)).

(** A quiet network that knows two transactions: ["sig1"] has a token
    instruction and moves 2 SOL between two accounts, ["sig2"] comes
    without its instruction list. *)
Definition net_transactions : Net :=
  mkNet (clock net0) (next_id net0) (chain_accounts net0)
    (<["sig1" :=
         mkParsedTransaction
           (Some (mkMeta (Some [5000000000; 0]%float)
                    (Some [3000000000; 2000000000]%float)))
           (Some [mkInstruction (Some SystemProgram_programId);
                  mkInstruction (Some TOKEN_PROGRAM_ID)])]>
       (<["sig2" := mkParsedTransaction None None]> ∅))
    [] false [] false [].

(** The scripted network with a chain client that releases every handle. *)
Definition release (h : Handle) : M Net unit :=
  fun n => (Normal tt, with_live n (filter (fun x => negb (x =? h)) (live n))).

Definition steady_host : Host Net :=
  mkHost Net
    (validKey host) clock (getAccountInfo host) (getBalance host)
    (getParsedTransaction host) (getParsedProgramAccounts host)
    (onAccountChange host) (onLogs host) release release.

(** The scripted network with a chain client whose [onLogs] always raises. *)
Definition logs_down_host : Host Net :=
  mkHost Net
    (validKey host) clock (getAccountInfo host) (getBalance host)
    (getParsedTransaction host) (getParsedProgramAccounts host)
    (onAccountChange host) (fun _ n => (Throw (RpcError "logs"), n))
    (removeAccountChangeListener host) (removeOnLogsListener host).

(** [W1] monitored since time [10^12] ms and [W2] since two days later,
    seen at that later time. *)
Definition world_two_wallets : World Net :=
  let w1 := snd (TransactionMonitor.startMonitoring steady_host W1 world0) in
  let n := net w1 in
  snd (TransactionMonitor.startMonitoring steady_host W2
         (set_net
            (mkNet (clock n + 2 * 86400000) (next_id n) (chain_accounts n)
               (chain_transactions n) (token_accounts n) false [] false
               (live n))
            w1)).

(** History calls answering from a fixed table: [W1] has one signature,
    ["sig1"], whose transaction starts with a system instruction followed by
    a token instruction; [W2] has a signature whose transaction is gone;
    nobody else has any. *)
Definition raw_sig1 : RawTransaction :=
  mkRawTransaction (Some (mkRawMeta true 5000%float))
    (Some (Some [mkInstruction (Some SystemProgram_programId);
                 mkInstruction (Some TOKEN_PROGRAM_ID)])).

Definition history : HistoryRpc Net :=
  mkHistoryRpc Net
    (fun a limit =>
       fetch (fun _ =>
         take (Z.to_nat limit)
           (if bool_decide (a = W1)
            then [mkSignatureInfo "sig1" (Some 999999000%float)]
            else if bool_decide (a = W2)
            then [mkSignatureInfo "gone" None]
            else [])))
    (fun sig =>
       fetch (fun _ =>
         if bool_decide (sig = "sig1") then Some raw_sig1 else None)).

End Sim.


(** * Theorems *)

Ltac unfold_js :=
  unfold rpc, console_log, console_error, Js.try_catch, Js.bind, Js.ret,
    Js.throw, Js.gets, Js.modify, Js.eval, Js.zoom in *.

(** Splits on the completion of the next host call of the goal. *)
Ltac host_call f :=
  match goal with
  | |- context [f ?h ?a ?n] =>
      let r := fresh "r" in
      let n' := fresh "n" in
      let E := fresh "E" in
      destruct (f h a n) as [r n'] eqn:E; destruct r; simpl
  end.

(** ** The registry: [startMonitoring] and [stopMonitoring] *)

Section RegistryFacts.
Context {Net : Type} (host : Host Net).
Implicit Type w : World Net.

Lemma startMonitoring_returns wallet w :
  fst (TransactionMonitor.startMonitoring host wallet w) = Normal tt.
Proof.
  unfold TransactionMonitor.startMonitoring,
    TransactionMonitor.startMonitoring_try, PublicKey_new.
  unfold_js. destruct (validKey host wallet); simpl; [|done].
  case_bool_decide; simpl; [done|].
  host_call (@onAccountChange Net); [|done].
  host_call (@onLogs Net); done.
Qed.

Lemma stopMonitoring_returns wallet w :
  fst (TransactionMonitor.stopMonitoring host wallet w) = Normal tt.
Proof.
  unfold TransactionMonitor.stopMonitoring,
    TransactionMonitor.stopMonitoring_try.
  unfold_js. destruct (subscriptions w !! wallet) as [ids|]; simpl; [|done].
  host_call (@removeAccountChangeListener Net); [|done].
  host_call (@removeOnLogsListener Net); done.
Qed.

(** Neither call touches the watch set or the emitted events. *)
Lemma startMonitoring_frame wallet w :
  let w' := snd (TransactionMonitor.startMonitoring host wallet w) in
  wallets w' = wallets w /\ significantActivity w' = significantActivity w.
Proof.
  unfold TransactionMonitor.startMonitoring,
    TransactionMonitor.startMonitoring_try, PublicKey_new.
  unfold_js. destruct (validKey host wallet); simpl; [|done].
  case_bool_decide; simpl; [done|].
  host_call (@onAccountChange Net); [|done].
  host_call (@onLogs Net); done.
Qed.

Lemma stopMonitoring_frame wallet w :
  let w' := snd (TransactionMonitor.stopMonitoring host wallet w) in
  wallets w' = wallets w /\ significantActivity w' = significantActivity w.
Proof.
  unfold TransactionMonitor.stopMonitoring,
    TransactionMonitor.stopMonitoring_try.
  unfold_js. destruct (subscriptions w !! wallet) as [ids|]; simpl; [|done].
  host_call (@removeAccountChangeListener Net); [|done].
  host_call (@removeOnLogsListener Net); done.
Qed.

(** An address that is already monitored: nothing is opened and the
    registry is left as it is; with a well-formed address the only effect
    is the "Already monitoring" line. *)
Lemma startMonitoring_already wallet w :
  wallet ∈ monitoredWallets w ->
  validKey host wallet = true ->
  snd (TransactionMonitor.startMonitoring host wallet w)
  = set_console
      (console w ++ [console_log_line ("Already monitoring wallet: " +:+ wallet)])
      w.
Proof.
  intros Hin Hkey.
  unfold TransactionMonitor.startMonitoring,
    TransactionMonitor.startMonitoring_try, PublicKey_new.
  unfold_js. rewrite Hkey. simpl.
  rewrite bool_decide_eq_true_2; done.
Qed.

Lemma startMonitoring_already_registry wallet w :
  wallet ∈ monitoredWallets w ->
  let w' := snd (TransactionMonitor.startMonitoring host wallet w) in
  same_registry w w' /\ net w' = net w.
Proof.
  intros Hin.
  unfold TransactionMonitor.startMonitoring,
    TransactionMonitor.startMonitoring_try, PublicKey_new, same_registry.
  unfold_js. destruct (validKey host wallet); simpl; [|done].
  rewrite bool_decide_eq_true_2; done.
Qed.

(** A fresh address whose two subscriptions open. *)
Lemma startMonitoring_fresh wallet w ids :
  wallet ∉ monitoredWallets w ->
  validKey host wallet = true ->
  opened_handles host wallet (net w) = Some ids ->
  let w' := snd (TransactionMonitor.startMonitoring host wallet w) in
  monitoredWallets w' = {[wallet]} ∪ monitoredWallets w
  /\ subscriptions w' = <[wallet := ids]> (subscriptions w)
  /\ exists t, lastActivity w' = <[wallet := t]> (lastActivity w).
Proof.
  intros Hin Hkey Hopen. revert Hopen.
  unfold TransactionMonitor.startMonitoring,
    TransactionMonitor.startMonitoring_try, PublicKey_new, opened_handles.
  unfold_js. rewrite Hkey. simpl.
  rewrite bool_decide_eq_false_2; [|done].
  host_call (@onAccountChange Net); [|done].
  host_call (@onLogs Net); [|done].
  intros [= <-]. eauto.
Qed.

(** A fresh address whose subscribe step raises: the error is logged and
    the registry is left as it is. *)
Lemma startMonitoring_failed wallet w :
  wallet ∉ monitoredWallets w ->
  ~ subscribe_succeeds host wallet (net w) ->
  same_registry w (snd (TransactionMonitor.startMonitoring host wallet w)).
Proof.
  intros Hin Hfail. revert Hfail.
  unfold TransactionMonitor.startMonitoring,
    TransactionMonitor.startMonitoring_try, PublicKey_new,
    subscribe_succeeds, opened_handles, same_registry.
  unfold_js. destruct (validKey host wallet); simpl; [|done].
  rewrite bool_decide_eq_false_2; [|done].
  host_call (@onAccountChange Net); [|done].
  host_call (@onLogs Net); [|done].
  intros Hfail. exfalso. apply Hfail. split; [done|]. by eexists.
Qed.

(** Whenever the subscribe step can succeed, the address is monitored
    afterwards and has a subscription entry. *)
Lemma startMonitoring_subscribed wallet w :
  keys_agree w ->
  subscribe_succeeds host wallet (net w) ->
  let w' := snd (TransactionMonitor.startMonitoring host wallet w) in
  wallet ∈ monitoredWallets w'
  /\ is_Some (subscriptions w' !! wallet)
  /\ (wallet ∉ monitoredWallets w ->
      subscriptions w' !! wallet = opened_handles host wallet (net w)).
Proof.
  intros [Hs Hl] [Hkey [ids Hopen]]. cbv zeta.
  destruct (decide (wallet ∈ monitoredWallets w)) as [Hin|Hin].
  - destruct (startMonitoring_already_registry wallet w Hin)
      as [(Hm & Hsub & _) _].
    rewrite Hm, Hsub. split_and!; [done| |done].
    apply elem_of_dom. by rewrite Hs.
  - destruct (startMonitoring_fresh wallet w ids Hin Hkey Hopen)
      as (Hm & Hsub & _).
    rewrite Hm, Hsub, Hopen, lookup_insert_eq.
    split_and!; [|by eexists|done].
    apply elem_of_union_l. by apply elem_of_singleton.
Qed.

Lemma startMonitoring_keys_agree wallet w :
  keys_agree w ->
  keys_agree (snd (TransactionMonitor.startMonitoring host wallet w)).
Proof.
  unfold TransactionMonitor.startMonitoring,
    TransactionMonitor.startMonitoring_try, PublicKey_new, keys_agree.
  unfold_js. intros [Hs Hl].
  destruct (validKey host wallet); simpl; [|done].
  case_bool_decide; simpl; [done|].
  host_call (@onAccountChange Net); [|done].
  host_call (@onLogs Net); [|done].
  rewrite !dom_insert_L, Hs, Hl. done.
Qed.

Lemma stopMonitoring_keys_agree wallet w :
  keys_agree w ->
  keys_agree (snd (TransactionMonitor.stopMonitoring host wallet w)).
Proof.
  unfold TransactionMonitor.stopMonitoring,
    TransactionMonitor.stopMonitoring_try, keys_agree.
  unfold_js. intros [Hs Hl].
  destruct (subscriptions w !! wallet) as [ids|]; simpl; [|done].
  host_call (@removeAccountChangeListener Net); [|done].
  host_call (@removeOnLogsListener Net); [|done].
  rewrite !dom_delete_L, Hs, Hl. done.
Qed.


Lemma run_calls_keys_agree cs w :
  keys_agree w -> keys_agree (run_calls host cs w).
Proof.
  revert w. induction cs as [|c cs IH]; intros w Hw; simpl; [done|].
  apply IH. destruct c; simpl.
  - by apply startMonitoring_keys_agree.
  - by apply stopMonitoring_keys_agree.
Qed.

End RegistryFacts.

(** ** [stopMonitoring] and [isWalletActive] *)

Section MonitorClaims.
Context {Net : Type} (host : Host Net).
Implicit Type w : World Net.


(** C7, as amended.  [isWalletActive] takes no ttl: it answers true
    exactly when a last-activity entry exists for the address, the
    recorded time is not 0, and [now - LastActivity] is strictly below
    24 hours (86,400,000 ms); with no entry it answers false. *)
Theorem isWalletActive_iff wallet w :
  TransactionMonitor.isWalletActive host wallet w = true
  <-> exists t, lastActivity w !! wallet = Some t
                /\ t <> 0
                /\ Date_now host (net w) - t < 86400000.
Proof.
  unfold TransactionMonitor.isWalletActive,
    TransactionMonitor.inactiveThreshold.
  destruct (lastActivity w !! wallet) as [t|]; split.
  - destruct (Z.eqb_spec t 0) as [->|Hne]; [done|].
    intros Hlt%Z.ltb_lt. exists t. repeat split; [done|lia].
  - intros (t' & [= <-] & Hne & Hlt).
    destruct (Z.eqb_spec t 0); [done|]. apply Z.ltb_lt. lia.
  - done.
  - intros (t' & [=] & _).
Qed.

Lemma isWalletActive_no_entry wallet w :
  lastActivity w !! wallet = None ->
  TransactionMonitor.isWalletActive host wallet w = false.
Proof. unfold TransactionMonitor.isWalletActive. by intros ->. Qed.

End MonitorClaims.



(** C7, refuted as stated: exactly 24 hours after the last activity the
    entry exists and [now - LastActivity <= ttl] holds for the default ttl,
    but [isWalletActive] answers false. *)
Lemma isWalletActive_boundary :
  let w := Sim.world_day_later in
  isActive_spec Sim.host 86400000 Sim.W1 w
  /\ TransactionMonitor.isWalletActive Sim.host Sim.W1 w = false.
Proof.
  split; [|reflexivity].
  exists 1000000000000. split; [reflexivity|]. by vm_compute.
Qed.

(** ** The facade: [addWallet] and [removeWallet] *)

Section ListenFacts.
Context {Net : Type} (host : Host Net).
Variable isValidWallet : string -> M Net bool.
Implicit Type w : World Net.

Lemma completion_true_dec (c : Completion bool) :
  {c = Normal true} + {c <> Normal true}.
Proof. destruct c as [[]|e]; [left|right|right]; congruence. Qed.

Lemma addWallet_valid wallet w :
  fst (isValidWallet wallet (net w)) = Normal true ->
  Listen.addWallet host isValidWallet wallet w
  = (Normal true,
     snd (TransactionMonitor.startMonitoring host wallet
            (after_validation isValidWallet wallet w))).
Proof.
  intros Hv. unfold Listen.addWallet, after_validation.
  pose proof (startMonitoring_returns host wallet
    (set_wallets ({[wallet]} ∪ wallets w)
       (set_net (snd (isValidWallet wallet (net w))) w))) as Hret.
  unfold_js. destruct (isValidWallet wallet (net w)) as [r n1].
  simpl in *. subst r. simpl.
  destruct (TransactionMonitor.startMonitoring host wallet _) as [[[]|e] w2];
    simpl in *; [done|discriminate].
Qed.

Lemma addWallet_invalid wallet w :
  fst (isValidWallet wallet (net w)) <> Normal true ->
  exists line,
    Listen.addWallet host isValidWallet wallet w
    = (Normal false,
       set_console (console w ++ [line])
         (set_net (snd (isValidWallet wallet (net w))) w)).
Proof.
  intros Hv. unfold Listen.addWallet. unfold_js.
  destruct (isValidWallet wallet (net w)) as [[[]|e] n1]; simpl in *;
    [done| |]; eauto.
Qed.

Lemma addWallet_returns wallet w :
  exists b, fst (Listen.addWallet host isValidWallet wallet w) = Normal b.
Proof.
  destruct (completion_true_dec (fst (isValidWallet wallet (net w))))
    as [Hv|Hv].
  - rewrite (addWallet_valid _ _ Hv). eauto.
  - destruct (addWallet_invalid _ _ Hv) as [line ->]. eauto.
Qed.

(** [addWallet] returns true only when the validity check passed. *)
Lemma addWallet_true_valid wallet w :
  fst (Listen.addWallet host isValidWallet wallet w) = Normal true ->
  fst (isValidWallet wallet (net w)) = Normal true.
Proof.
  intros Htrue.
  destruct (completion_true_dec (fst (isValidWallet wallet (net w))))
    as [Hv|Hv]; [done|].
  destruct (addWallet_invalid _ _ Hv) as [line Heq].
  rewrite Heq in Htrue. discriminate.
Qed.

Lemma addWallet_valid_wallets wallet w :
  fst (isValidWallet wallet (net w)) = Normal true ->
  wallets (snd (Listen.addWallet host isValidWallet wallet w))
  = {[wallet]} ∪ wallets w.
Proof.
  intros Hv. rewrite (addWallet_valid _ _ Hv). simpl.
  by destruct (startMonitoring_frame host wallet
                 (after_validation isValidWallet wallet w)) as [-> _].
Qed.

(** C4, as amended.  [removeWallet(A)] returns true for every address A,
    monitored or not, and A is not in the watch set afterwards. *)
Theorem removeWallet_returns_true wallet w :
  fst (Listen.removeWallet host wallet w) = Normal true
  /\ wallets (snd (Listen.removeWallet host wallet w))
     = wallets w ∖ {[wallet]}.
Proof.
  unfold Listen.removeWallet.
  pose proof (stopMonitoring_returns host wallet
                (set_wallets (wallets w ∖ {[wallet]}) w)) as Hret.
  pose proof (stopMonitoring_frame host wallet
                (set_wallets (wallets w ∖ {[wallet]}) w)) as [Hw _].
  unfold_js.
  destruct (TransactionMonitor.stopMonitoring host wallet _) as [[[]|e] w2];
    simpl in *; [done|discriminate].
Qed.

(** For an address without a subscription entry, [removeWallet] changes
    nothing in the registry and calls nothing on the network. *)
Lemma removeWallet_unmonitored wallet w :
  subscriptions w !! wallet = None ->
  Listen.removeWallet host wallet w
  = (Normal true, set_wallets (wallets w ∖ {[wallet]}) w).
Proof.
  intros Hnone. unfold Listen.removeWallet,
    TransactionMonitor.stopMonitoring, TransactionMonitor.stopMonitoring_try.
  unfold_js. simpl. rewrite Hnone. done.
Qed.

End ListenFacts.

(** C4, refuted as stated: [W1] is neither watched nor monitored, and
    [removeWallet(W1)] returns true. *)
Lemma removeWallet_unmonitored_returns_true :
  (Sim.W1 ∉ wallets Sim.world0)
  /\ (Sim.W1 ∉ TransactionMonitor.getMonitoredWallets Sim.world0)
  /\ fst (Listen.removeWallet Sim.host Sim.W1 Sim.world0) = Normal true.
Proof.
  split_and!; try reflexivity.
  - apply (bool_decide_unpack _). vm_compute. exact I.
  - apply (bool_decide_unpack _). vm_compute. exact I.
Qed.

(** In the run that refutes C5, [removeWallet(W1)] returns true while [W1]
    stays monitored with both handles live. *)
Example removeWallet_true_still_monitored :
  let r := Listen.removeWallet Sim.host Sim.W1 Sim.world_release_fails in
  fst r = Normal true
  /\ monitoredWallets (snd r) = {[Sim.W1]}
  /\ Sim.live (net (snd r)) = [1; 2].
Proof. repeat split; reflexivity. Qed.

(** ** Significance classification *)

Section Significance.
Context {Net : Type} (host : Host Net).
Implicit Type w : World Net.

Lemma isSignificantTransaction_frame event w :
  significantActivity (snd (Listen.isSignificantTransaction host event w))
  = significantActivity w.
Proof.
  unfold Listen.isSignificantTransaction,
    Listen.isSignificantTransaction_try.
  unfold_js.
  destruct (getParsedTransaction host (signature event) (net w))
    as [[[tx|]|e] n1]; simpl; try done.
  destruct (match instructions tx with
            | Some ixs => Listen.some_token_instruction ixs
            | None => _
            end) as [[]|e]; simpl; try done.
  destruct (WalletUtils.calculateTransactionValue tx); done.
Qed.

Lemma isSignificantTransaction_returns event w :
  exists b,
    fst (Listen.isSignificantTransaction host event w) = Normal b.
Proof.
  unfold Listen.isSignificantTransaction,
    Listen.isSignificantTransaction_try.
  unfold_js.
  destruct (getParsedTransaction host (signature event) (net w))
    as [[[tx|]|e] n1]; simpl; eauto.
  destruct (match instructions tx with
            | Some ixs => Listen.some_token_instruction ixs
            | None => _
            end) as [[]|e]; simpl; eauto.
  destruct (WalletUtils.calculateTransactionValue tx); simpl; eauto.
Qed.

Lemma isSignificantTransaction_caught event w e w1 :
  Listen.isSignificantTransaction_try host event w = (Throw e, w1) ->
  Listen.isSignificantTransaction host event w
  = (Normal false,
     set_console
       (console w1
        ++ [console_error_line "Error checking transaction significance:" e])
       w1).
Proof.
  intros Htry. unfold Listen.isSignificantTransaction, try_catch.
  rewrite Htry. reflexivity.
Qed.

Lemma isSignificantAccountChange_caught event w e w1 :
  Listen.isSignificantAccountChange_try event w = (Throw e, w1) ->
  Listen.isSignificantAccountChange event w
  = (Normal false,
     set_console
       (console w
        ++ [console_error_line
              "Error checking account change significance:" e])
       w).
Proof.
  unfold Listen.isSignificantAccountChange,
    Listen.isSignificantAccountChange_try.
  unfold_js. destruct (accountInfo event); [done|].
  intros [= <- <-]. reflexivity.
Qed.

(** [handleWalletActivity] never raises. *)
Lemma handleWalletActivity_returns event w :
  fst (Listen.handleWalletActivity host event w) = Normal tt.
Proof.
  unfold Listen.handleWalletActivity.
  destruct (isSignificantTransaction_returns event w) as [b Hb].
  unfold Listen.isSignificantAccountChange,
    Listen.isSignificantAccountChange_try, Listen.emit_significantActivity.
  unfold try_catch at 1. unfold bind at 1 2.
  case_bool_decide.
  - destruct (Listen.isSignificantTransaction host event w) as [r w2].
    simpl in Hb. subst r. destruct b; reflexivity.
  - case_bool_decide; [|reflexivity].
    unfold_js. destruct (accountInfo event) as [info|]; simpl; [|done].
    destruct (PrimFloat.ltb _ _); reflexivity.
Qed.

(** C3.  If classifying an event raises a fetch or parse error, the
    verdict is false, [handleWalletActivity] completes normally for its
    caller and nothing is emitted on ['significantActivity']. *)
Theorem classification_error_fail_closed event w e w1 :
  type event = "transaction" \/ type event = "account_change" ->
  classify_try host event w = (Throw e, w1) ->
  fst (classify host event w) = Normal false
  /\ fst (Listen.handleWalletActivity host event w) = Normal tt
  /\ significantActivity (snd (Listen.handleWalletActivity host event w))
     = significantActivity w.
Proof.
  intros Htype Htry. split_and!.
  - revert Htry. unfold classify, classify_try. case_bool_decide; intros Htry.
    + by rewrite (isSignificantTransaction_caught _ _ _ _ Htry).
    + by rewrite (isSignificantAccountChange_caught _ _ _ _ Htry).
  - apply handleWalletActivity_returns.
  - revert Htry. unfold classify_try, Listen.handleWalletActivity.
    unfold try_catch at 1. unfold bind at 1 2.
    case_bool_decide as Htx; intros Htry.
    + pose proof (isSignificantTransaction_frame event w) as Hframe.
      rewrite (isSignificantTransaction_caught _ _ _ _ Htry) in *.
      simpl in *. done.
    + destruct Htype as [Htype|Htype]; [done|].
      rewrite bool_decide_eq_true_2 by done.
      by rewrite (isSignificantAccountChange_caught _ _ _ _ Htry).
Qed.

End Significance.

Lemma classification_error_fail_closed_witness :
  let w := Sim.world_of Sim.net_no_fetch in
  fst (classify Sim.host Sim.transaction_event w) = Normal false
  /\ fst (Listen.handleWalletActivity Sim.host Sim.transaction_event w)
     = Normal tt
  /\ significantActivity
       (snd (Listen.handleWalletActivity Sim.host Sim.transaction_event w))
     = significantActivity w.
Proof.
  apply (classification_error_fail_closed Sim.host Sim.transaction_event
           (Sim.world_of Sim.net_no_fetch) (RpcError "fetch")
           (Sim.world_of Sim.net_no_fetch)).
  - left. reflexivity.
  - reflexivity.
Defined.

(** A token transfer moving 2 SOL is classified significant and emitted;
    a transaction without instruction list raises inside the classifier
    and is dropped. *)
Example handleWalletActivity_transactions :
  let w := Sim.world_of Sim.net_transactions in
  significantActivity
    (snd (Listen.handleWalletActivity Sim.host Sim.transaction_event w))
  = [Sim.transaction_event]
  /\ fst (Listen.isSignificantTransaction_try Sim.host Sim.malformed_event w)
     = Throw (TypeError "tx.transaction.message.instructions")
  /\ Listen.handleWalletActivity Sim.host Sim.malformed_event w
     = (Normal tt,
        set_console
          [console_error_line "Error checking transaction significance:"
             (TypeError "tx.transaction.message.instructions")] w).
Proof. repeat split; reflexivity. Qed.

(** Scenario 3: an account change of 0.5 SOL is not significant, one of
    2 SOL is. *)
Example isSignificantAccountChange_scenario :
  fst (Listen.isSignificantAccountChange
         (Sim.account_change_event 500000000%float) Sim.world0)
  = Normal false
  /\ fst (Listen.isSignificantAccountChange
            (Sim.account_change_event 2000000000%float) Sim.world0)
     = Normal true.
Proof. split; reflexivity. Qed.

(** ** Wallet validation *)

Section Validation.
Context {Net : Type} (host : Host Net).
Implicit Type w : World Net.

(** With the scope wallet-utils.js has, [isValidWallet] answers false for
    every address and every network: whenever the account exists, reading
    [SystemProgram] raises a [ReferenceError] that the [catch] turns into
    [false]. *)
Lemma isValidWallet_source_false address n :
  fst (WalletUtils.isValidWallet host WalletUtils.source_scope address n)
  = Normal false.
Proof.
  unfold WalletUtils.isValidWallet, WalletUtils.isValidWallet_try,
    PublicKey_new.
  unfold_js. destruct (validKey host address); simpl; [|done].
  destruct (getAccountInfo host address n) as [[[info|]|e] n1]; done.
Qed.

End Validation.

(** Nothing is ever added through the facade as the repository wires it:
    [addWallet] returns false for every address and leaves the watch set and
    the registry as they were. *)
Lemma addWallet_as_written_false {Net} (host : Host Net) wallet
    (w : World Net) :
  let r := Listen.addWallet host (Listen.walletUtils host) wallet w in
  fst r = Normal false /\ wallets (snd r) = wallets w
  /\ same_registry w (snd r).
Proof.
  cbv zeta.
  destruct (addWallet_invalid host (Listen.walletUtils host) wallet w)
    as [line ->]; [|done].
  unfold Listen.walletUtils. by rewrite isValidWallet_source_false.
Qed.

(** ** [addWallet] with the validity check the repository has

    [new Listen(config)] builds its validity check from wallet-utils.js,
    whose [isValidWallet] answers false for every address.  The claims
    about [addWallet] are settled on that wiring. *)

Section WiredFacade.
Context {Net : Type} (host : Host Net).
Implicit Type w : World Net.



End WiredFacade.


(** Two calls in a row, for any address: both return false and nothing is
    recorded, so the second call never reaches the "Already monitoring"
    branch of [startMonitoring]. *)
Lemma addWallet_twice_as_written {Net} (host : Host Net) wallet
    (w : World Net) :
  let r1 := Listen.addWallet host (Listen.walletUtils host) wallet w in
  let r2 :=
    Listen.addWallet host (Listen.walletUtils host) wallet (snd r1) in
  fst r1 = Normal false /\ fst r2 = Normal false
  /\ wallets (snd r2) = wallets w
  /\ same_registry w (snd r2).
Proof.
  pose proof (addWallet_as_written_false host wallet w) as H1.
  pose proof (addWallet_as_written_false host wallet
                (snd (Listen.addWallet host (Listen.walletUtils host) wallet
                        w))) as H2.
  cbv zeta in *. unfold same_registry in *.
  destruct H1 as (Hr1 & Hw1 & Hm1 & Hs1 & Hl1).
  destruct H2 as (Hr2 & Hw2 & Hm2 & Hs2 & Hl2).
  rewrite Hw2, Hm2, Hs2, Hl2. done.
Qed.

(** C6, on the code as written: [W1] exists, is owned by the system program
    and holds 0.02 SOL, yet two calls of [addWallet(W1)] in a row both
    return false and leave no subscription for [W1], not one.  The second
    call is refused by the validity check, like the first; no
    "Already monitoring wallet" line is logged and no handle is opened. *)
Theorem addWallet_twice_leaves_no_subscription :
  let r1 :=
    Listen.addWallet Sim.host (Listen.walletUtils Sim.host) Sim.W1
      Sim.world0 in
  let r2 :=
    Listen.addWallet Sim.host (Listen.walletUtils Sim.host) Sim.W1
      (snd r1) in
  Sim.chain_accounts Sim.net0 !! Sim.W1
  = Some (mkAccountInfo 20000000%float SystemProgram_programId false)
  /\ PrimFloat.ltb (0.01 * LAMPORTS_PER_SOL)%float 20000000%float = true
  /\ fst r1 = Normal false
  /\ fst r2 = Normal false
  /\ subscriptions (snd r2) !! Sim.W1 = None
  /\ monitoredWallets (snd r2) = ∅
  /\ Sim.live (net (snd r2)) = []
  /\ console (snd r2)
     = [console_log_line "Invalid wallet address: W1";
        console_log_line "Invalid wallet address: W1"].
Proof. repeat split; reflexivity. Qed.

(** C8, first scenario, on the code as written: [W1] exists, is owned by
    the system program and holds 0.02 SOL, above the 0.01 SOL minimum, yet
    [addWallet(W1)] returns false.  The validity check stops at the
    unbound identifier [SystemProgram]. *)
Theorem addWallet_system_wallet_rejected :
  let r :=
    Listen.addWallet Sim.host (Listen.walletUtils Sim.host) Sim.W1
      Sim.world0 in
  Sim.chain_accounts Sim.net0 !! Sim.W1
  = Some (mkAccountInfo 20000000%float SystemProgram_programId false)
  /\ PrimFloat.ltb (0.01 * LAMPORTS_PER_SOL)%float 20000000%float = true
  /\ WalletUtils.isValidWallet_try Sim.host WalletUtils.source_scope Sim.W1
       Sim.net0
     = (Throw (ReferenceError "SystemProgram"), Sim.net0)
  /\ fst r = Normal false
  /\ console (snd r) = [console_log_line "Invalid wallet address: W1"]
  /\ subscriptions (snd r) !! Sim.W1 = None.
Proof. repeat split; reflexivity. Qed.

(** ** Bulk discovery: [__get_last_100] *)

Section HoldersOrder.
Context {Net : Type} (host : Host Net).
Variable isValidWallet : string -> M Net bool.
Implicit Type w : World Net.

(** Whatever the validity collaborator answers, the loop only appends
    owners of the accounts it is given, in their order. *)
Lemma holders_loop_sublist accounts : forall holders w hs,
  fst (Listen.holders_loop host isValidWallet accounts holders w) = Normal hs ->
  exists found,
    hs = holders ++ found
    /\ found `sublist_of` (parsed_info_owner <$> accounts).
Proof.
  induction accounts as [|acc rest IH]; intros holders w hs; simpl.
  - intros [= <-]. exists []. by rewrite app_nil_r.
  - destruct (parsed_info acc); [|done].
    unfold bind at 1. unfold rpc at 1, zoom.
    destruct (isValidWallet (parsed_info_owner acc) (net w)) as [[[]|e] n1];
      [| |done].
    + unfold bind at 1.
      destruct (Listen.addWallet host isValidWallet (parsed_info_owner acc)
                  (set_net n1 w)) as [[b|e] wa]; [|done].
      intros (found & -> & Hsub)%IH.
      exists (parsed_info_owner acc :: found).
      rewrite <- app_assoc. split; [done|]. by apply sublist_skip.
    + intros (found & -> & Hsub)%IH.
      exists found. split; [done|]. by apply sublist_cons.
Qed.

(** X19.  [__get_last_100] always returns a list: at most 100 addresses,
    taken in order from the owners of the first 100 accounts fetched. *)
Lemma get_last_100_sublist tokenAddress w :
  exists hs,
    fst (Listen.__get_last_100 host isValidWallet tokenAddress w) = Normal hs
    /\ (length hs <= 100)%nat
    /\ forall accounts n1,
         getParsedProgramAccounts host TOKEN_PROGRAM_ID tokenAddress (net w)
         = (Normal accounts, n1) ->
         hs `sublist_of` (parsed_info_owner <$> take 100 accounts).
Proof.
  unfold Listen.__get_last_100, try_catch. unfold bind at 1.
  unfold rpc at 1, zoom.
  destruct (getParsedProgramAccounts host TOKEN_PROGRAM_ID tokenAddress (net w))
    as [[accounts|e] n1].
  - pose proof (holders_loop_sublist (take 100 accounts) [] (set_net n1 w))
      as Hloop.
    destruct (Listen.holders_loop host isValidWallet (take 100 accounts) []
                (set_net n1 w)) as [[hs|e] w2].
    + destruct (Hloop hs eq_refl) as (found & -> & Hsub).
      exists found. split_and!; [done| |].
      * apply sublist_length in Hsub.
        rewrite length_fmap, length_take in Hsub. simpl. lia.
      * by intros ? ? [= <- <-].
    + exists []. split_and!; [done|simpl; lia|].
      intros. apply sublist_nil_l.
  - exists []. split_and!; [done|simpl; lia|done].
Qed.

End HoldersOrder.

(** *** The scan with the validity check the repository has *)

Section WiredHolders.
Context {Net : Type} (host : Host Net).
Implicit Type w : World Net.

(** One round of the scan loop with that check. *)
Lemma as_wired_holders_loop_cons acc rest holders w :
  Listen.holders_loop host (Listen.walletUtils host) (acc :: rest) holders w
  = if parsed_info acc then
      Listen.holders_loop host (Listen.walletUtils host) rest holders
        (set_net (snd (Listen.walletUtils host (parsed_info_owner acc) (net w)))
           w)
    else (Throw (TypeError "account.account.data.parsed.info"), w).
Proof.
  simpl. destruct (parsed_info acc); [|done].
  pose proof (isValidWallet_source_false host (parsed_info_owner acc)
                (net w)) as Hv.
  unfold Listen.walletUtils in *. unfold bind at 1. unfold rpc at 1, zoom.
  destruct (WalletUtils.isValidWallet host WalletUtils.source_scope
              (parsed_info_owner acc) (net w)) as [r n1].
  simpl in Hv. by subst r.
Qed.

(** The scan loop with that check: it can stop on an account that does not
    parse, but it never finds a holder. *)
Lemma as_wired_holders_loop accounts : forall holders w,
  (fst (Listen.holders_loop host (Listen.walletUtils host) accounts holders w)
   = Normal holders
   \/ exists e,
        fst (Listen.holders_loop host (Listen.walletUtils host) accounts
               holders w) = Throw e)
  /\ wallets
       (snd (Listen.holders_loop host (Listen.walletUtils host) accounts
               holders w)) = wallets w
  /\ same_registry w
       (snd (Listen.holders_loop host (Listen.walletUtils host) accounts
               holders w)).
Proof.
  induction accounts as [|acc rest IH]; intros holders w.
  - simpl. unfold same_registry. auto 10.
  - rewrite as_wired_holders_loop_cons.
    destruct (parsed_info acc);
      [|unfold same_registry; simpl; eauto 10].
    apply (IH holders
             (set_net (snd (Listen.walletUtils host (parsed_info_owner acc)
                              (net w))) w)).
Qed.


End WiredHolders.

(** The scan over a token with 150 holder accounts, the first of them
    owned by [W1], which exists, is owned by the system program and holds
    0.02 SOL: nobody is returned and nobody is monitored. *)
Example get_last_100_of_150_as_written :
  let w := Sim.world_of Sim.net_many_holders in
  let r :=
    Listen.__get_last_100 Sim.host (Listen.walletUtils Sim.host) "mint" w in
  length (Sim.token_accounts Sim.net_many_holders) = 150%nat
  /\ fst r = Normal []
  /\ monitoredWallets (snd r) = ∅
  /\ wallets (snd r) = ∅
  /\ console (snd r) = [].
Proof. repeat split; reflexivity. Qed.

(** * Further properties of the monitoring code *)

(** ** The registry *)

Section RegistryMore.
Context {Net : Type} (host : Host Net).
Implicit Type w : World Net.

(** [stopMonitoring] when both releases succeed. *)
Lemma stopMonitoring_released wallet w ids n1 n2 :
  subscriptions w !! wallet = Some ids ->
  removeAccountChangeListener host (account ids) (net w) = (Normal tt, n1) ->
  removeOnLogsListener host (signature_id ids) n1 = (Normal tt, n2) ->
  let w' := snd (TransactionMonitor.stopMonitoring host wallet w) in
  monitoredWallets w' = monitoredWallets w ∖ {[wallet]}
  /\ subscriptions w' = delete wallet (subscriptions w)
  /\ lastActivity w' = delete wallet (lastActivity w)
  /\ net w' = n2.
Proof.
  intros Hids H1 H2.
  unfold TransactionMonitor.stopMonitoring,
    TransactionMonitor.stopMonitoring_try.
  unfold_js. rewrite Hids. simpl. rewrite H1. simpl. rewrite H2. done.
Qed.

(** X1.  Round trip: for an address the registry holds nothing about (no
    subscription, not monitored, no last-activity entry), monitoring it and
    then stopping it, with every chain call succeeding, gives back the
    registry one started from. *)
Theorem start_stop_round_trip wallet w ids n1 n2 :
  no_bookkeeping wallet w ->
  validKey host wallet = true ->
  opened_handles host wallet (net w) = Some ids ->
  removeAccountChangeListener host (account ids)
    (net (snd (TransactionMonitor.startMonitoring host wallet w)))
  = (Normal tt, n1) ->
  removeOnLogsListener host (signature_id ids) n1 = (Normal tt, n2) ->
  same_registry w
    (snd (TransactionMonitor.stopMonitoring host wallet
            (snd (TransactionMonitor.startMonitoring host wallet w)))).
Proof.
  intros (Hnone & Hfresh & Hnone') Hkey Hopen H1 H2.
  destruct (startMonitoring_fresh host wallet w ids Hfresh Hkey Hopen)
    as (Hm & Hsub & t & Hlast).
  set (w1 := snd (TransactionMonitor.startMonitoring host wallet w)) in *.
  assert (subscriptions w1 !! wallet = Some ids) as Hids.
  { rewrite Hsub. apply lookup_insert_eq. }
  destruct (stopMonitoring_released wallet w1 ids n1 n2 Hids H1 H2)
    as (Hm' & Hsub' & Hlast' & _).
  unfold same_registry. rewrite Hm', Hsub', Hlast', Hm, Hsub, Hlast.
  rewrite !delete_insert_id by done. split_and!; [|done|done].
  apply set_eq. intros a.
  rewrite elem_of_difference, elem_of_union, !elem_of_singleton.
  split; [intros [[->|Ha] Hne]; done|].
  intros Ha. split; [by right|]. by intros ->.
Qed.

Lemma run_call_other_untouched c other w :
  call_wallet c <> other ->
  let w' := run_call host c w in
  subscriptions w' !! other = subscriptions w !! other
  /\ lastActivity w' !! other = lastActivity w !! other
  /\ (other ∈ monitoredWallets w' <-> other ∈ monitoredWallets w).
Proof.
  intros Hne. destruct c as [wallet|wallet]; simpl in *.
  - unfold TransactionMonitor.startMonitoring,
      TransactionMonitor.startMonitoring_try, PublicKey_new.
    unfold_js. destruct (validKey host wallet); simpl; [|done].
    case_bool_decide; simpl; [done|].
    host_call (@onAccountChange Net); [|done].
    host_call (@onLogs Net); [|done].
    rewrite !lookup_insert_ne by done. split_and!; [done|done|].
    rewrite elem_of_union, elem_of_singleton.
    split; [intros [Heq|Hin]; [congruence|done]|by right].
  - unfold TransactionMonitor.stopMonitoring,
      TransactionMonitor.stopMonitoring_try.
    unfold_js. destruct (subscriptions w !! wallet) as [ids|]; simpl; [|done].
    host_call (@removeAccountChangeListener Net); [|done].
    host_call (@removeOnLogsListener Net); [|done].
    rewrite !lookup_delete_ne by done. split_and!; [done|done|].
    rewrite elem_of_difference, elem_of_singleton.
    split; [by intros [Hin _]|]. intros Hin. split; [done|congruence].
Qed.

(** X2.  Calls made for other addresses leave the bookkeeping of an address
    exactly as it was, whatever the chain client answers. *)
Theorem run_calls_other_untouched cs other w :
  Forall (fun c => call_wallet c <> other) cs ->
  subscriptions (run_calls host cs w) !! other = subscriptions w !! other
  /\ lastActivity (run_calls host cs w) !! other = lastActivity w !! other
  /\ (other ∈ monitoredWallets (run_calls host cs w)
      <-> other ∈ monitoredWallets w).
Proof.
  revert w. induction cs as [|c cs IH]; intros w Hcs; simpl; [done|].
  inversion Hcs as [|? ? Hc Hrest]; subst.
  destruct (IH (run_call host c w) Hrest) as (-> & -> & ->).
  by apply run_call_other_untouched.
Qed.

(** X4.  No rollback: when the account-change subscription opens and the
    log subscription raises, the registry is left as it was and the
    network stays as the failed call left it; the handle that was opened
    is recorded nowhere and no release is attempted. *)
Theorem startMonitoring_no_rollback wallet w h1 n1 e n2 :
  wallet ∉ monitoredWallets w ->
  validKey host wallet = true ->
  onAccountChange host wallet (net w) = (Normal h1, n1) ->
  onLogs host wallet n1 = (Throw e, n2) ->
  let w' := snd (TransactionMonitor.startMonitoring host wallet w) in
  same_registry w w'
  /\ net w' = n2
  /\ console w'
     = console w
       ++ [console_error_line
             ("Error starting monitoring for wallet " +:+ wallet +:+ ":") e].
Proof.
  intros Hfresh Hkey H1 H2.
  unfold TransactionMonitor.startMonitoring,
    TransactionMonitor.startMonitoring_try, PublicKey_new, same_registry.
  unfold_js. rewrite Hkey. simpl.
  rewrite bool_decide_eq_false_2 by done.
  rewrite H1. simpl. rewrite H2. done.
Qed.

(** X3.  Failure containment: whenever the subscribe step for a fresh
    address raises (the address is no public key, or either subscription
    fails to open), [startMonitoring] still returns normally, logs exactly
    one error line and leaves the registry and the watch set as they
    were. *)
Theorem subscribe_failure_contained wallet w :
  wallet ∉ monitoredWallets w ->
  ~ subscribe_succeeds host wallet (net w) ->
  let r := TransactionMonitor.startMonitoring host wallet w in
  fst r = Normal tt
  /\ same_registry w (snd r)
  /\ wallets (snd r) = wallets w
  /\ exists e,
       console (snd r)
       = console w
         ++ [console_error_line
               ("Error starting monitoring for wallet " +:+ wallet +:+ ":") e].
Proof.
  intros Hin Hfail. revert Hfail.
  unfold TransactionMonitor.startMonitoring,
    TransactionMonitor.startMonitoring_try, PublicKey_new,
    subscribe_succeeds, opened_handles, same_registry.
  unfold_js. destruct (validKey host wallet); simpl; [|eauto 10].
  rewrite bool_decide_eq_false_2; [|done].
  host_call (@onAccountChange Net); [|eauto 10].
  host_call (@onLogs Net); [|eauto 10].
  intros Hfail. exfalso. apply Hfail. split; [done|]. by eexists.
Qed.

End RegistryMore.

Lemma start_stop_round_trip_witness :
  same_registry Sim.world0
    (snd (TransactionMonitor.stopMonitoring Sim.host Sim.W1
            (snd (TransactionMonitor.startMonitoring Sim.host Sim.W1
                    Sim.world0)))).
Proof.
  apply (start_stop_round_trip Sim.host Sim.W1 Sim.world0
           (mkSubscriptionIds 1 2)
           (Sim.with_live
              (net (snd (TransactionMonitor.startMonitoring Sim.host Sim.W1
                           Sim.world0))) [2])
           (Sim.with_live
              (net (snd (TransactionMonitor.startMonitoring Sim.host Sim.W1
                           Sim.world0))) [])).
  - split_and!; [reflexivity| |reflexivity].
    apply (bool_decide_unpack _). vm_compute. exact I.
  - reflexivity.
  - reflexivity.
  - reflexivity.
  - reflexivity.
Defined.

Lemma run_calls_other_untouched_witness :
  let w :=
    run_calls Sim.host [CallStart Sim.W2; CallStop Sim.W2; CallStart Sim.W2]
      Sim.world_monitoring in
  subscriptions w !! Sim.W1 = subscriptions Sim.world_monitoring !! Sim.W1
  /\ lastActivity w !! Sim.W1 = lastActivity Sim.world_monitoring !! Sim.W1
  /\ (Sim.W1 ∈ monitoredWallets w
      <-> Sim.W1 ∈ monitoredWallets Sim.world_monitoring).
Proof.
  apply (run_calls_other_untouched Sim.host
           [CallStart Sim.W2; CallStop Sim.W2; CallStart Sim.W2] Sim.W1
           Sim.world_monitoring).
  repeat constructor; discriminate.
Defined.

Lemma subscribe_failure_contained_witness :
  let r :=
    TransactionMonitor.startMonitoring Sim.host Sim.W1
      (Sim.world_of Sim.net_no_subscribe) in
  fst r = Normal tt
  /\ same_registry (Sim.world_of Sim.net_no_subscribe) (snd r)
  /\ wallets (snd r) = wallets (Sim.world_of Sim.net_no_subscribe)
  /\ exists e,
       console (snd r)
       = console (Sim.world_of Sim.net_no_subscribe)
         ++ [console_error_line
               ("Error starting monitoring for wallet " +:+ Sim.W1 +:+ ":") e].
Proof.
  apply (subscribe_failure_contained Sim.host Sim.W1
           (Sim.world_of Sim.net_no_subscribe)).
  - apply (bool_decide_unpack _). vm_compute. exact I.
  - intros [_ [ids Hids]]. vm_compute in Hids. discriminate.
Defined.

Lemma startMonitoring_no_rollback_witness :
  let w' :=
    snd (TransactionMonitor.startMonitoring Sim.logs_down_host Sim.W1
           Sim.world0) in
  same_registry Sim.world0 w'
  /\ net w' = Sim.with_next Sim.net0 [1]
  /\ console w'
     = console Sim.world0
       ++ [console_error_line
             ("Error starting monitoring for wallet " +:+ Sim.W1 +:+ ":")
             (RpcError "logs")].
Proof.
  apply (startMonitoring_no_rollback Sim.logs_down_host Sim.W1 Sim.world0 1
           (Sim.with_next Sim.net0 [1]) (RpcError "logs")
           (Sim.with_next Sim.net0 [1])).
  - apply (bool_decide_unpack _). vm_compute. exact I.
  - reflexivity.
  - reflexivity.
  - reflexivity.
Defined.

(** ** The facade as the repository wires it *)

Section Wired.
Context {Net : Type} (host : Host Net).
Implicit Type w : World Net.

(** X5.  Whatever the event, [handleWalletActivity] returns normally, leaves
    the watch set and the registry as they were, and puts on
    ['significantActivity'] nothing but, at most once, the event it was
    given. *)
Theorem handleWalletActivity_frame event w :
  let r := Listen.handleWalletActivity host event w in
  fst r = Normal tt
  /\ wallets (snd r) = wallets w
  /\ same_registry w (snd r)
  /\ (significantActivity (snd r) = significantActivity w
      \/ significantActivity (snd r) = significantActivity w ++ [event]).
Proof.
  unfold Listen.handleWalletActivity, Listen.isSignificantTransaction,
    Listen.isSignificantTransaction_try, Listen.isSignificantAccountChange,
    Listen.isSignificantAccountChange_try, Listen.emit_significantActivity,
    same_registry.
  unfold_js. case_bool_decide.
  - destruct (getParsedTransaction host (signature event) (net w))
      as [[[tx|]|e] n1]; simpl; [|by auto 10..].
    destruct (match instructions tx with
              | Some ixs => Listen.some_token_instruction ixs
              | None => _
              end) as [[]|e]; simpl; [|by auto 10..].
    destruct (WalletUtils.calculateTransactionValue tx) as [v|e]; simpl;
      [|by auto 10].
    destruct (PrimFloat.ltb 1 v); simpl; by auto 10.
  - case_bool_decide; simpl; [|by auto 10].
    destruct (accountInfo event) as [info|]; simpl; [|by auto 10].
    destruct (PrimFloat.ltb _ _); simpl; by auto 10.
Qed.

(** X6.  With the wallet-validity check the repository has, [addWallet]
    refuses every address on every network: it returns false, logs
    "Invalid wallet address" and leaves the watch set and the registry as
    they were. *)
Theorem as_wired_addWallet_rejects wallet w :
  let r := Listen.addWallet host (Listen.walletUtils host) wallet w in
  fst r = Normal false
  /\ wallets (snd r) = wallets w
  /\ same_registry w (snd r)
  /\ console (snd r)
     = console w ++ [console_log_line ("Invalid wallet address: " +:+ wallet)].
Proof.
  pose proof (isValidWallet_source_false host wallet (net w)) as Hv.
  unfold Listen.addWallet, Listen.walletUtils, same_registry in *.
  unfold rpc, zoom, try_catch, bind.
  destruct (WalletUtils.isValidWallet host WalletUtils.source_scope wallet
              (net w)) as [r n1].
  simpl in Hv. subst r. done.
Qed.

(** X7.  With the wallet-validity check the repository has, the top-holders
    scan finds nobody: it returns the empty list for every token and every
    network and leaves the watch set and the registry as they were. *)
Theorem as_wired_get_last_100_empty tokenAddress w :
  let r :=
    Listen.__get_last_100 host (Listen.walletUtils host) tokenAddress w in
  fst r = Normal []
  /\ wallets (snd r) = wallets w
  /\ same_registry w (snd r).
Proof.
  cbv zeta. unfold Listen.__get_last_100, try_catch, bind, rpc, zoom.
  destruct (getParsedProgramAccounts host TOKEN_PROGRAM_ID tokenAddress (net w))
    as [[accounts|e] n1]; [|by unfold same_registry].
  destruct (as_wired_holders_loop host (take 100 accounts) []
              (set_net n1 w)) as (Hr & Hw & Hreg).
  destruct (Listen.holders_loop host (Listen.walletUtils host)
              (take 100 accounts) [] (set_net n1 w)) as [[hs|e] w2].
  - cbn [fst snd] in *. destruct Hr as [[= ->]|[e He]]; [done|discriminate].
  - cbn [fst snd] in *. unfold same_registry in *. done.
Qed.

End Wired.

(** ** The sweep: [cleanup] *)

Section Sweep.
Context {Net : Type} (host : Host Net).
Implicit Type w : World Net.

Lemma stopMonitoring_shrinks wallet w :
  monitoredWallets (snd (TransactionMonitor.stopMonitoring host wallet w))
  ⊆ monitoredWallets w.
Proof.
  unfold TransactionMonitor.stopMonitoring,
    TransactionMonitor.stopMonitoring_try.
  unfold_js. destruct (subscriptions w !! wallet) as [ids|]; simpl; [|done].
  host_call (@removeAccountChangeListener Net); [|done].
  host_call (@removeOnLogsListener Net); [|done].
  apply subseteq_difference_l. done.
Qed.

(** One round of the sweep. *)
Lemma cleanup_loop_cons wallet rest w :
  TransactionMonitor.cleanup_loop host (wallet :: rest) w
  = if TransactionMonitor.isWalletActive host wallet w
    then TransactionMonitor.cleanup_loop host rest w
    else TransactionMonitor.cleanup_loop host rest
           (snd (TransactionMonitor.stopMonitoring host wallet w)).
Proof.
  simpl. unfold bind at 1. unfold gets.
  destruct (TransactionMonitor.isWalletActive host wallet w); [done|].
  unfold bind.
  pose proof (stopMonitoring_returns host wallet w) as Hret.
  destruct (TransactionMonitor.stopMonitoring host wallet w) as [r w1].
  simpl in Hret. by subst r.
Qed.

Lemma cleanup_loop_facts order : forall w,
  fst (TransactionMonitor.cleanup_loop host order w) = Normal tt
  /\ (keys_agree w ->
      keys_agree (snd (TransactionMonitor.cleanup_loop host order w)))
  /\ monitoredWallets (snd (TransactionMonitor.cleanup_loop host order w))
     ⊆ monitoredWallets w
  /\ wallets (snd (TransactionMonitor.cleanup_loop host order w)) = wallets w
  /\ significantActivity (snd (TransactionMonitor.cleanup_loop host order w))
     = significantActivity w.
Proof.
  induction order as [|wallet rest IH]; intros w; [done|].
  rewrite cleanup_loop_cons.
  destruct (TransactionMonitor.isWalletActive host wallet w); [apply IH|].
  pose proof (stopMonitoring_keys_agree host wallet w) as Hkeys.
  pose proof (stopMonitoring_shrinks wallet w) as Hsub.
  pose proof (stopMonitoring_frame host wallet w) as [Hw Hsig].
  destruct (IH (snd (TransactionMonitor.stopMonitoring host wallet w)))
    as (Hr & Hk & Hs & Hw' & Hsig').
  split_and!; [done| |by etrans|congruence|congruence].
  intros Hagree. by apply Hk, Hkeys.
Qed.

(** X8.  A sweep never raises, keeps the three collections of the registry
    on the same keys, only ever removes monitored addresses and does not
    touch the watch set, whatever the chain client answers and in whatever
    order the set is visited. *)
Theorem cleanup_keeps_registry_consistent order w :
  keys_agree w ->
  let r := TransactionMonitor.cleanup host order w in
  fst r = Normal tt
  /\ keys_agree (snd r)
  /\ monitoredWallets (snd r) ⊆ monitoredWallets w
  /\ wallets (snd r) = wallets w.
Proof.
  intros Hagree. unfold TransactionMonitor.cleanup.
  destruct (cleanup_loop_facts order w) as (Hr & Hk & Hs & Hw & _).
  split_and!; auto.
Qed.

Lemma isWalletActive_ext wallet w w1 :
  lastActivity w1 !! wallet = lastActivity w !! wallet ->
  Date_now host (net w1) = Date_now host (net w) ->
  TransactionMonitor.isWalletActive host wallet w1
  = TransactionMonitor.isWalletActive host wallet w.
Proof.
  intros Hl Hd. unfold TransactionMonitor.isWalletActive. by rewrite Hl, Hd.
Qed.

Hypothesis reliable : releases_reliable host.

(** With reliable releases [stopMonitoring] always completes. *)
Lemma stopMonitoring_reliable wallet w :
  keys_agree w ->
  let w1 := snd (TransactionMonitor.stopMonitoring host wallet w) in
  monitoredWallets w1 = monitoredWallets w ∖ {[wallet]}
  /\ lastActivity w1 = delete wallet (lastActivity w)
  /\ Date_now host (net w1) = Date_now host (net w).
Proof.
  intros [Hs Hl].
  unfold TransactionMonitor.stopMonitoring,
    TransactionMonitor.stopMonitoring_try.
  unfold_js. destruct (subscriptions w !! wallet) as [ids|] eqn:Hids; simpl.
  - destruct (reliable (account ids) (net w)) as (Ha & _ & Hda & _).
    destruct (removeAccountChangeListener host (account ids) (net w))
      as [ra n1]. simpl in *. subst ra.
    destruct (reliable (signature_id ids) n1) as (_ & Hb & _ & Hdb).
    destruct (removeOnLogsListener host (signature_id ids) n1) as [rb n2].
    simpl in *. subst rb. simpl. split_and!; [done|done|congruence].
  - assert (wallet ∉ monitoredWallets w) as Hnot.
    { rewrite <- Hs. by apply not_elem_of_dom. }
    assert (lastActivity w !! wallet = None) as Hnone.
    { apply not_elem_of_dom. by rewrite Hl. }
    split_and!; [|by rewrite delete_id|done].
    symmetry. apply difference_disjoint_L. by apply disjoint_singleton_r.
Qed.

Lemma cleanup_loop_evicts order : forall w,
  keys_agree w ->
  Date_now host (net (snd (TransactionMonitor.cleanup_loop host order w)))
  = Date_now host (net w)
  /\ forall a,
       a ∈ monitoredWallets (snd (TransactionMonitor.cleanup_loop host order w))
       <-> a ∈ monitoredWallets w
           /\ (a ∈ order -> TransactionMonitor.isWalletActive host a w = true).
Proof.
  induction order as [|wallet rest IH]; intros w Hagree.
  - simpl. split; [done|]. intros a.
    split; [intros Ha; split; [done|]|by intros [Ha _]].
    intros Hin. by apply elem_of_nil in Hin.
  - rewrite cleanup_loop_cons.
    destruct (TransactionMonitor.isWalletActive host wallet w) eqn:Hact.
    + destruct (IH w Hagree) as [Hd Hiff]. split; [done|].
      intros a. rewrite Hiff. split; intros [Ha Himp]; (split; [done|]).
      * intros [->|Hin]%elem_of_cons; [done|by apply Himp].
      * intros Hin. apply Himp. by right.
    + pose proof (stopMonitoring_keys_agree host wallet w Hagree) as Hkeys.
      destruct (stopMonitoring_reliable wallet w Hagree) as (Hm & Hl & Hd).
      set (w1 := snd (TransactionMonitor.stopMonitoring host wallet w)) in *.
      destruct (IH w1 Hkeys) as [Hd' Hiff]. split; [congruence|].
      intros a. rewrite Hiff, Hm, elem_of_difference, elem_of_singleton.
      destruct (decide (a = wallet)) as [->|Hne].
      * split; [by intros [[_ Hne] _]|]. intros [_ Himp].
        rewrite Himp in Hact; [discriminate|by left].
      * assert (TransactionMonitor.isWalletActive host a w1
                = TransactionMonitor.isWalletActive host a w) as Hsame.
        { apply isWalletActive_ext; [|done].
          rewrite Hl. by apply lookup_delete_ne. }
        rewrite Hsame. split.
        -- intros [[Ha _] Himp]. split; [done|].
           intros [->|Hin]%elem_of_cons; [done|by apply Himp].
        -- intros [Ha Himp]. split; [done|]. intros Hin. apply Himp. by right.
Qed.

(** X9.  The reaper: when the chain client releases every handle and the
    sweep visits every monitored address, an address is still monitored
    after the sweep exactly when it was monitored and active before it. *)
Theorem cleanup_evicts_inactive order w a :
  keys_agree w ->
  (forall x, x ∈ monitoredWallets w -> x ∈ order) ->
  a ∈ monitoredWallets (snd (TransactionMonitor.cleanup host order w))
  <-> a ∈ monitoredWallets w
      /\ TransactionMonitor.isWalletActive host a w = true.
Proof.
  intros Hagree Hall. unfold TransactionMonitor.cleanup.
  destruct (cleanup_loop_evicts order w Hagree) as [_ Hiff].
  rewrite Hiff. split; intros [Ha Hact]; (split; [done|]); auto.
Qed.

End Sweep.

Lemma cleanup_keeps_registry_consistent_witness :
  let r :=
    TransactionMonitor.cleanup Sim.host [Sim.W1] Sim.world_day_later in
  fst r = Normal tt
  /\ keys_agree (snd r)
  /\ monitoredWallets (snd r) ⊆ monitoredWallets Sim.world_day_later
  /\ wallets (snd r) = wallets Sim.world_day_later.
Proof.
  apply (cleanup_keeps_registry_consistent Sim.host [Sim.W1]
           Sim.world_day_later).
  split; reflexivity.
Defined.

Lemma steady_host_reliable : releases_reliable Sim.steady_host.
Proof. intros h n. repeat split; reflexivity. Qed.

Lemma cleanup_evicts_inactive_witness :
  Sim.W1
  ∈ monitoredWallets
      (snd (TransactionMonitor.cleanup Sim.steady_host [Sim.W1; Sim.W2]
              Sim.world_two_wallets))
  <-> Sim.W1 ∈ monitoredWallets Sim.world_two_wallets
      /\ TransactionMonitor.isWalletActive Sim.steady_host Sim.W1
           Sim.world_two_wallets = true.
Proof.
  apply (cleanup_evicts_inactive Sim.steady_host steady_host_reliable
           [Sim.W1; Sim.W2] Sim.world_two_wallets Sim.W1).
  - split; reflexivity.
  - intros x Hx. apply (bool_decide_unpack _).
    assert (x = Sim.W1 \/ x = Sim.W2) as [-> | ->]; [|done|done].
    revert Hx. change (monitoredWallets Sim.world_two_wallets)
      with ({[Sim.W2]} ∪ ({[Sim.W1]} ∪ ∅) : gset string).
    rewrite !elem_of_union, !elem_of_singleton, elem_of_empty. tauto.
Defined.

(** The sweep on the scripted network: [W1], silent for two days, is
    evicted and its two handles are released; [W2] stays. *)
Example cleanup_two_wallets :
  let r :=
    TransactionMonitor.cleanup Sim.steady_host [Sim.W1; Sim.W2]
      Sim.world_two_wallets in
  monitoredWallets Sim.world_two_wallets = {[Sim.W1; Sim.W2]}
  /\ monitoredWallets (snd r) = {[Sim.W2]}
  /\ dom (subscriptions (snd r)) = {[Sim.W2]}
  /\ Sim.live (net (snd r)) = [3; 4].
Proof. repeat split; reflexivity. Qed.

Section ListenSweep.
Context {Net : Type} (host : Host Net).
Implicit Type w : World Net.

(** X10.  [Listen.cleanup] never raises and rebuilds the watch set from the
    registry: afterwards the watch set is exactly the set of monitored
    addresses that are active, so every watched address is monitored,
    whatever was in the watch set before. *)
Theorem Listen_cleanup_rebuilds_watch_set order w :
  let r := Listen.cleanup host order w in
  fst r = Normal tt
  /\ wallets (snd r) = TransactionMonitor.getActiveWallets host (snd r)
  /\ wallets (snd r) ⊆ monitoredWallets (snd r)
  /\ forall a,
       a ∈ wallets (snd r) ->
       TransactionMonitor.isWalletActive host a (snd r) = true.
Proof.
  cbv zeta.
  assert (Listen.cleanup host order w
          = let w1 := snd (TransactionMonitor.cleanup host order w) in
            let w2 := set_wallets (Listen.getActiveWallets host w1) w1 in
            (Normal tt,
             set_console
               (console w2
                ++ [console_log_line
                      ("Cleanup completed. Monitoring "
                       +:+ pretty (size (wallets w2)) +:+ " active wallets")])
               w2)) as ->.
  { unfold Listen.cleanup, TransactionMonitor.cleanup.
    destruct (cleanup_loop_facts host order w) as (Hr & _).
    unfold_js.
    destruct (TransactionMonitor.cleanup_loop host order w) as [r w1].
    simpl in Hr. by subst r. }
  cbv zeta. cbn [fst snd].
  set (w1 := snd (TransactionMonitor.cleanup host order w)).
  assert (forall a,
            a ∈ TransactionMonitor.getActiveWallets host w1
            <-> TransactionMonitor.isWalletActive host a w1 = true
                /\ a ∈ monitoredWallets w1) as Hactive.
  { intros a. unfold TransactionMonitor.getActiveWallets,
      TransactionMonitor.getMonitoredWallets. by rewrite elem_of_filter. }
  split_and!; [done|done| |].
  - intros a Ha. by apply Hactive in Ha as [_ Ha].
  - intros a Ha. by apply Hactive in Ha as [Ha _].
Qed.

End ListenSweep.

(** ** Notifications *)

Section Notifications.
Context {Net : Type} (host : Host Net).
Implicit Type w : World Net.

(** The event [handleAccountChange] builds. *)
Lemma handleAccountChange_wired wallet info rent context_slot w :
  let event :=
    mkEvent "account_change" wallet (Date_now host (net w)) context_slot ""
      (Some (mkEventAccountInfo (lamports info) (owner info)
               (executable info))) in
  TransactionMonitor.handleAccountChange host
    [Listen.walletActivity_listener host] wallet info rent context_slot w
  = Listen.handleWalletActivity host event
      (set_lastActivity
         (<[wallet := Date_now host (net w)]> (lastActivity w)) w).
Proof.
  cbv zeta.
  unfold TransactionMonitor.handleAccountChange,
    Listen.walletActivity_listener.
  simpl. unfold bind at 1 2 3. unfold gets, modify, ret. simpl.
  pose proof (handleWalletActivity_returns host
    (mkEvent "account_change" wallet (Date_now host (net w)) context_slot ""
       (Some (mkEventAccountInfo (lamports info) (owner info)
                (executable info))))
    (set_lastActivity (<[wallet := Date_now host (net w)]> (lastActivity w))
       w)) as Hret.
  destruct (Listen.handleWalletActivity host _ _) as [[[]|e] w2];
    simpl in *; [done|discriminate].
Qed.

(** X11.  An account-change notification reaches ['significantActivity']
    exactly when the account's balance, in SOL, exceeds 1 in absolute
    value; the event then carries the notified lamports, owner and
    executable flag unchanged.  The notification never raises. *)
Theorem account_change_notification wallet info rent context_slot w :
  let r :=
    TransactionMonitor.handleAccountChange host
      [Listen.walletActivity_listener host] wallet info rent context_slot w in
  let event :=
    mkEvent "account_change" wallet (Date_now host (net w)) context_slot ""
      (Some (mkEventAccountInfo (lamports info) (owner info)
               (executable info))) in
  fst r = Normal tt
  /\ significantActivity (snd r)
     = significantActivity w
       ++ (if PrimFloat.ltb 1 (PrimFloat.abs (lamports info / 1e9))
           then [event] else []).
Proof.
  cbv zeta. rewrite handleAccountChange_wired. cbv zeta.
  unfold Listen.handleWalletActivity, Listen.isSignificantAccountChange,
    Listen.isSignificantAccountChange_try, Listen.emit_significantActivity.
  unfold_js. simpl.
  destruct (PrimFloat.ltb 1 (PrimFloat.abs (lamports info / 1e9))); simpl.
  - done.
  - by rewrite app_nil_r.
Qed.

(** X12.  Touch: an account-change notification records the current time
    for the address and changes nothing else in the registry, the watch set
    or the network; unless the clock reads 0, the address counts as active
    right after it. *)
Theorem account_change_touches wallet info rent context_slot w :
  Date_now host (net w) <> 0 ->
  let w' :=
    snd (TransactionMonitor.handleAccountChange host
           [Listen.walletActivity_listener host] wallet info rent
           context_slot w) in
  TransactionMonitor.isWalletActive host wallet w' = true
  /\ lastActivity w' = <[wallet := Date_now host (net w)]> (lastActivity w)
  /\ monitoredWallets w' = monitoredWallets w
  /\ subscriptions w' = subscriptions w
  /\ wallets w' = wallets w
  /\ net w' = net w.
Proof.
  intros Hclock. cbv zeta. rewrite handleAccountChange_wired. cbv zeta.
  unfold Listen.handleWalletActivity, Listen.isSignificantAccountChange,
    Listen.isSignificantAccountChange_try, Listen.emit_significantActivity,
    TransactionMonitor.isWalletActive, TransactionMonitor.inactiveThreshold.
  unfold_js. simpl.
  destruct (PrimFloat.ltb 1 (PrimFloat.abs (lamports info / 1e9))); simpl;
    rewrite lookup_insert_eq;
    (destruct (Z.eqb_spec (Date_now host (net w)) 0); [done|]);
    rewrite Z.sub_diag; done.
Qed.

(** [handleNewTransaction] never raises, whatever the listeners do. *)
Lemma handleNewTransaction_returns history listeners wallet logs context_slot
    w :
  fst (TransactionMonitor.handleNewTransaction host history listeners wallet
         logs context_slot w) = Normal tt.
Proof.
  unfold TransactionMonitor.handleNewTransaction, try_catch, console_error,
    modify.
  destruct (TransactionMonitor.handleNewTransaction_try host history listeners
              wallet logs context_slot w) as [[[]|e] w1]; done.
Qed.

(** X13.  A log notification is dropped in silence when the address has no
    signature or when the transaction of its latest signature cannot be
    found: [handleNewTransaction] returns normally, calls no listener, logs
    nothing and leaves the last-activity map as it was. *)
Theorem new_transaction_dropped history listeners wallet logs context_slot w
    signatures n1 :
  validKey host wallet = true ->
  getSignaturesForAddress history wallet 1 (net w) = (Normal signatures, n1) ->
  match signatures with
  | [] => True
  | first :: _ =>
      fst (getParsedTransactionWithMeta history (info_signature first) n1)
      = Normal None
  end ->
  let r :=
    TransactionMonitor.handleNewTransaction host history listeners wallet
      logs context_slot w in
  fst r = Normal tt
  /\ lastActivity (snd r) = lastActivity w
  /\ console (snd r) = console w
  /\ significantActivity (snd r) = significantActivity w
  /\ same_registry w (snd r)
  /\ wallets (snd r) = wallets w.
Proof.
  intros Hkey Hsigs Htx. cbv zeta.
  unfold TransactionMonitor.handleNewTransaction,
    TransactionMonitor.handleNewTransaction_try, PublicKey_new, same_registry.
  unfold_js. rewrite Hkey. simpl. rewrite Hsigs. simpl.
  destruct signatures as [|first more]; simpl; [done|].
  destruct (getParsedTransactionWithMeta history (info_signature first) n1)
    as [r n2]. simpl in Htx. subst r. done.
Qed.

(** X14.  The type tag and the significance test agree in one direction:
    a transaction that [getTransactionType] tags ['token_transaction'] has a
    token instruction for [isSignificantTransaction], provided every
    instruction names its program. *)
Theorem token_tag_implies_token_transfer m ixs :
  Forall (fun ix => is_Some (programId ix)) ixs ->
  TransactionMonitor.getTransactionType
    (mkRawTransaction (Some m) (Some (Some ixs)))
  = Normal "token_transaction" ->
  Listen.some_token_instruction ixs = Normal true.
Proof.
  intros Hall. unfold TransactionMonitor.getTransactionType. simpl.
  destruct ixs as [|first rest]; [done|].
  inversion Hall as [|? ? [p Hp] _]; subst. simpl. rewrite Hp.
  unfold PublicKey_equals, TOKEN_PROGRAM_ID.
  case_bool_decide; [done|]. case_bool_decide; done.
Qed.

End Notifications.

Lemma account_change_touches_witness :
  let w' :=
    snd (TransactionMonitor.handleAccountChange Sim.host
           [Listen.walletActivity_listener Sim.host] Sim.W1
           (mkAccountInfo 2000000000%float SystemProgram_programId false)
           (Some 361%float) 7 Sim.world_day_later) in
  TransactionMonitor.isWalletActive Sim.host Sim.W1 w' = true
  /\ lastActivity w'
     = <[Sim.W1 := Date_now Sim.host (net Sim.world_day_later)]>
         (lastActivity Sim.world_day_later)
  /\ monitoredWallets w' = monitoredWallets Sim.world_day_later
  /\ subscriptions w' = subscriptions Sim.world_day_later
  /\ wallets w' = wallets Sim.world_day_later
  /\ net w' = net Sim.world_day_later.
Proof.
  apply (account_change_touches Sim.host Sim.W1
           (mkAccountInfo 2000000000%float SystemProgram_programId false)
           (Some 361%float) 7 Sim.world_day_later).
  vm_compute. discriminate.
Defined.

Lemma new_transaction_dropped_witness :
  let r :=
    TransactionMonitor.handleNewTransaction Sim.host Sim.history
      [Listen.walletActivity_listener Sim.host] Sim.W2 ["log line"] 7
      Sim.world_monitoring in
  fst r = Normal tt
  /\ lastActivity (snd r) = lastActivity Sim.world_monitoring
  /\ console (snd r) = console Sim.world_monitoring
  /\ significantActivity (snd r) = significantActivity Sim.world_monitoring
  /\ same_registry Sim.world_monitoring (snd r)
  /\ wallets (snd r) = wallets Sim.world_monitoring.
Proof.
  apply (new_transaction_dropped Sim.host Sim.history
           [Listen.walletActivity_listener Sim.host] Sim.W2 ["log line"] 7
           Sim.world_monitoring [mkSignatureInfo "gone" None]
           (net Sim.world_monitoring)).
  - reflexivity.
  - reflexivity.
  - reflexivity.
Defined.

Lemma token_tag_implies_token_transfer_witness :
  Listen.some_token_instruction
    [mkInstruction (Some TOKEN_PROGRAM_ID);
     mkInstruction (Some SystemProgram_programId)] = Normal true.
Proof.
  apply (token_tag_implies_token_transfer (mkRawMeta true 5000%float)
           [mkInstruction (Some TOKEN_PROGRAM_ID);
            mkInstruction (Some SystemProgram_programId)]).
  - repeat constructor; by eexists.
  - reflexivity.
Defined.

(** The converse fails, and a notification shows it: the latest transaction
    of [W1] starts with a system instruction, so the event is tagged
    ['system_transaction'], yet it moves 2 SOL through a token instruction
    and ends up on ['significantActivity']. *)
Example system_tag_yet_significant :
  let r :=
    TransactionMonitor.handleNewTransaction Sim.host Sim.history
      [Listen.walletActivity_listener Sim.host] Sim.W1 [] 7
      (Sim.world_of Sim.net_transactions) in
  TransactionMonitor.getTransactionType Sim.raw_sig1
  = Normal "system_transaction"
  /\ significantActivity (snd r)
     = [mkEvent "transaction" Sim.W1 1000000000000 7 "sig1" None]
  /\ lastActivity (snd r) !! Sim.W1 = Some 1000000000000.
Proof. repeat split; reflexivity. Qed.

(** ** Wallet filtering *)

Section Filtering.
Context {Net : Type} (host : Host Net) (history : HistoryRpc Net).
Implicit Type w : World Net.

(** [isActiveTrader] never raises. *)
Lemma isActiveTrader_returns address minTransactions n :
  exists b,
    fst (WalletUtils.isActiveTrader host history address minTransactions n)
    = Normal b.
Proof.
  unfold WalletUtils.isActiveTrader, try_catch, ret.
  destruct (WalletUtils.isActiveTrader_try host history address
              minTransactions n) as [[b|e] n1]; simpl; eauto.
Qed.

(** X15.  [isActiveTrader] answers false, and raises nothing, whenever the
    signature fetch raises, returns fewer signatures than [minTransactions]
    or returns none at all; the last case covers a [minTransactions] of 0 or
    less. *)
Theorem isActiveTrader_too_few address minTransactions n :
  match
    fst (getSignaturesForAddress history address minTransactions n)
  with
  | Normal signatures =>
      Z.of_nat (length signatures) < minTransactions \/ signatures = []
  | Throw _ => True
  end ->
  fst (WalletUtils.isActiveTrader host history address minTransactions n)
  = Normal false.
Proof.
  unfold WalletUtils.isActiveTrader, WalletUtils.isActiveTrader_try,
    PublicKey_new.
  unfold_js. destruct (validKey host address); simpl; [|done].
  destruct (getSignaturesForAddress history address minTransactions n)
    as [[signatures|e] n1]; simpl; [|done].
  intros [Hfew| ->].
  - apply Z.ltb_lt in Hfew. rewrite Hfew. reflexivity.
  - simpl. destruct (_ <? minTransactions); reflexivity.
Qed.

(** One round of the filter loop never raises: the array is left alone or
    gets the current address, which then is a public key; nothing but the
    network and the console changes. *)
Lemma filterWallets_round_facts minBalance minTransactions activeOnly wallet
    validWallets w :
  exists validWallets' w1,
    WalletUtils.filterWallets_round host history minBalance minTransactions
      activeOnly wallet validWallets w
    = (Normal validWallets', w1)
    /\ (validWallets' = validWallets
        \/ validWallets' = validWallets ++ [wallet]
           /\ validKey host wallet = true)
    /\ same_registry w w1
    /\ wallets w1 = wallets w.
Proof.
  unfold WalletUtils.filterWallets_round, PublicKey_new, same_registry,
    Promise_all2.
  unfold_js.
  destruct (validKey host wallet) eqn:Hkey; simpl; [|by eauto 10].
  destruct (getBalance host wallet (net w)) as [r1 n1].
  destruct ((if activeOnly
             then WalletUtils.isActiveTrader host history wallet
                    minTransactions
             else fun s => (Normal true, s)) n1) as [r2 n2].
  destruct r1 as [balance|e1], r2 as [isActive|e2]; simpl;
    try by eauto 10.
  destruct (PrimFloat.leb (minBalance * LAMPORTS_PER_SOL) balance
            && isActive); simpl; by eauto 10.
Qed.

Lemma filterWallets_loop_cons minBalance minTransactions activeOnly wallet
    rest validWallets w :
  exists validWallets' w1,
    WalletUtils.filterWallets_loop host history minBalance minTransactions
      activeOnly (wallet :: rest) validWallets w
    = WalletUtils.filterWallets_loop host history minBalance minTransactions
        activeOnly rest validWallets' w1
    /\ (validWallets' = validWallets
        \/ validWallets' = validWallets ++ [wallet]
           /\ validKey host wallet = true)
    /\ same_registry w w1
    /\ wallets w1 = wallets w.
Proof.
  destruct (filterWallets_round_facts minBalance minTransactions activeOnly
              wallet validWallets w) as (validWallets' & w1 & Hround & Hrest).
  exists validWallets', w1. split; [|done].
  simpl. unfold bind at 1. by rewrite Hround.
Qed.

Lemma filterWallets_loop_sublist minBalance minTransactions activeOnly
    candidates : forall validWallets w,
  exists found,
    fst (WalletUtils.filterWallets_loop host history minBalance
           minTransactions activeOnly candidates validWallets w)
    = Normal (validWallets ++ found)
    /\ found `sublist_of` candidates
    /\ Forall (fun a => validKey host a = true) found
    /\ same_registry w
         (snd (WalletUtils.filterWallets_loop host history minBalance
                 minTransactions activeOnly candidates validWallets w))
    /\ wallets
         (snd (WalletUtils.filterWallets_loop host history minBalance
                 minTransactions activeOnly candidates validWallets w))
       = wallets w.
Proof.
  induction candidates as [|wallet rest IH]; intros validWallets w.
  - exists []. simpl. rewrite app_nil_r. unfold same_registry. by auto 10.
  - destruct (filterWallets_loop_cons minBalance minTransactions activeOnly
                wallet rest validWallets w)
      as (validWallets' & w1 & -> & Hacc & (Hm & Hs & Hl) & Hw).
    destruct (IH validWallets' w1) as (found & Hr & Hsub & Hkeys & Hreg & Hw').
    destruct Hreg as (Hm' & Hs' & Hl').
    destruct Hacc as [-> | [-> Hkey]].
    + exists found. rewrite Hr. unfold same_registry.
      split_and!; try done; try congruence. by apply sublist_cons.
    + exists (wallet :: found). rewrite Hr, <- app_assoc.
      unfold same_registry.
      split_and!; try done; try congruence.
      * by apply sublist_skip.
      * by constructor.
Qed.

(** X16.  [filterWallets] never raises and never invents or reorders: it
    returns a sub-list of the candidates, in their order, made of addresses
    that are public keys; an address whose check raises is logged and
    skipped without ending the scan.  The registry and the watch set are
    not touched. *)
Theorem filterWallets_sublist candidates options w :
  exists valid,
    fst (WalletUtils.filterWallets host history candidates options w)
    = Normal valid
    /\ valid `sublist_of` candidates
    /\ Forall (fun a => validKey host a = true) valid
    /\ same_registry w
         (snd (WalletUtils.filterWallets host history candidates options w))
    /\ wallets
         (snd (WalletUtils.filterWallets host history candidates options w))
       = wallets w.
Proof.
  unfold WalletUtils.filterWallets.
  destruct (filterWallets_loop_sublist
              (default 0.01%float (WalletUtils.minBalance options))
              (default 5 (WalletUtils.minTransactions options))
              (default true (WalletUtils.activeOnly options))
              candidates [] w) as (found & Hr & Hrest).
  exists found. by rewrite Hr.
Qed.

End Filtering.

Lemma isActiveTrader_too_few_witness :
  fst (WalletUtils.isActiveTrader Sim.host Sim.history Sim.W1 5 Sim.net0)
  = Normal false.
Proof.
  apply (isActiveTrader_too_few Sim.host Sim.history Sim.W1 5 Sim.net0).
  left. vm_compute. reflexivity.
Defined.

(** On the scripted network, with the default options: [W1] holds 0.02 SOL
    but has a single signature, so it is no active trader and is filtered
    out; asked for the balance only, the filter keeps the two accounts that
    exist and skips the empty address with an error line. *)
Example filterWallets_examples :
  let defaults := WalletUtils.mkOptions None None None in
  let balance_only := WalletUtils.mkOptions None None (Some false) in
  fst (WalletUtils.filterWallets Sim.host Sim.history [Sim.W1; Sim.W2]
         defaults Sim.world0) = Normal []
  /\ fst (WalletUtils.filterWallets Sim.host Sim.history
            [Sim.W1; ""; "W3"; Sim.W2] balance_only Sim.world0)
     = Normal [Sim.W1; Sim.W2]
  /\ console
       (snd (WalletUtils.filterWallets Sim.host Sim.history
               [Sim.W1; ""; "W3"; Sim.W2] balance_only Sim.world0))
     = [console_error_line "Error filtering wallet :" (InvalidPublicKey "")].
Proof. repeat split; reflexivity. Qed.

(** ** Notifications and the key sets of the registry *)

Section NotificationKeys.
Context {Net : Type} (host : Host Net).
Implicit Type w : World Net.

(** What an account-change notification does to the registry. *)
Lemma handleAccountChange_registry wallet info rent context_slot w :
  let w' :=
    snd (TransactionMonitor.handleAccountChange host
           [Listen.walletActivity_listener host] wallet info rent
           context_slot w) in
  lastActivity w' = <[wallet := Date_now host (net w)]> (lastActivity w)
  /\ monitoredWallets w' = monitoredWallets w
  /\ subscriptions w' = subscriptions w.
Proof.
  cbv zeta. rewrite handleAccountChange_wired. cbv zeta.
  unfold Listen.handleWalletActivity, Listen.isSignificantAccountChange,
    Listen.isSignificantAccountChange_try, Listen.emit_significantActivity.
  unfold_js. simpl.
  destruct (PrimFloat.ltb 1 (PrimFloat.abs (lamports info / 1e9))); done.
Qed.

(** X17.  A notification keeps the three collections of the registry on the
    same keys exactly when its address is monitored: one that arrives for
    an address that is not monitored, for instance after its
    [stopMonitoring], leaves a last-activity entry without subscription. *)
Theorem notification_keeps_keys_iff wallet info rent context_slot w :
  keys_agree w ->
  keys_agree
    (snd (TransactionMonitor.handleAccountChange host
            [Listen.walletActivity_listener host] wallet info rent
            context_slot w))
  <-> wallet ∈ monitoredWallets w.
Proof.
  intros [Hs Hl].
  destruct (handleAccountChange_registry wallet info rent context_slot w)
    as (Hlast & Hm & Hsub).
  unfold keys_agree. rewrite Hlast, Hm, Hsub, dom_insert_L, Hl. split.
  - intros [_ Heq]. rewrite <- Heq.
    apply elem_of_union_l. by apply elem_of_singleton.
  - intros Hin. split; [done|].
    apply subseteq_union_1_L. by apply singleton_subseteq_l.
Qed.

(** X18.  An address whose monitoring has just started is active: unless
    the clock reads 0, [isWalletActive] holds right after a
    [startMonitoring] that subscribed it, so a sweep that follows at once
    does not evict it. *)
Theorem fresh_wallet_is_active wallet w ids :
  wallet ∉ monitoredWallets w ->
  validKey host wallet = true ->
  opened_handles host wallet (net w) = Some ids ->
  Date_now host
    (net (snd (TransactionMonitor.startMonitoring host wallet w))) <> 0 ->
  TransactionMonitor.isWalletActive host wallet
    (snd (TransactionMonitor.startMonitoring host wallet w)) = true.
Proof.
  intros Hfresh Hkey Hopen. revert Hopen.
  unfold TransactionMonitor.startMonitoring,
    TransactionMonitor.startMonitoring_try, PublicKey_new, opened_handles,
    TransactionMonitor.isWalletActive, TransactionMonitor.inactiveThreshold.
  unfold_js. rewrite Hkey. simpl.
  rewrite bool_decide_eq_false_2 by done.
  host_call (@onAccountChange Net); [|done].
  host_call (@onLogs Net); [|done].
  intros _ Hclock. rewrite lookup_insert_eq.
  destruct (Z.eqb_spec (Date_now host n0) 0); [done|].
  rewrite Z.sub_diag. done.
Qed.

End NotificationKeys.

Lemma notification_keeps_keys_iff_witness :
  keys_agree
    (snd (TransactionMonitor.handleAccountChange Sim.host
            [Listen.walletActivity_listener Sim.host] Sim.W2
            (mkAccountInfo 2000000000%float SystemProgram_programId false)
            None 7 Sim.world_monitoring))
  <-> Sim.W2 ∈ monitoredWallets Sim.world_monitoring.
Proof.
  apply (notification_keeps_keys_iff Sim.host Sim.W2
           (mkAccountInfo 2000000000%float SystemProgram_programId false)
           None 7 Sim.world_monitoring).
  split; reflexivity.
Defined.

Lemma fresh_wallet_is_active_witness :
  TransactionMonitor.isWalletActive Sim.host Sim.W1
    (snd (TransactionMonitor.startMonitoring Sim.host Sim.W1 Sim.world0))
  = true.
Proof.
  apply (fresh_wallet_is_active Sim.host Sim.W1 Sim.world0
           (mkSubscriptionIds 1 2)).
  - apply (bool_decide_unpack _). vm_compute. exact I.
  - reflexivity.
  - reflexivity.
  - vm_compute. discriminate.
Defined.

(** A notification for [W2], which is not monitored, leaves it with a
    last-activity entry: it counts as active although it has no
    subscription and is not in [listMonitored()]. *)
Example stray_notification :
  let w' :=
    snd (TransactionMonitor.handleAccountChange Sim.host
           [Listen.walletActivity_listener Sim.host] Sim.W2
           (mkAccountInfo 2000000000%float SystemProgram_programId false)
           None 7 Sim.world_monitoring) in
  monitoredWallets w' = {[Sim.W1]}
  /\ subscriptions w' !! Sim.W2 = None
  /\ TransactionMonitor.isWalletActive Sim.host Sim.W2 w' = true
  /\ TransactionMonitor.getActiveWallets Sim.host w' = {[Sim.W1]}.
Proof. repeat split; reflexivity. Qed.

(** ** The key sets of the registry under calls and notifications *)

Section RegistrySteps.
Context {Net : Type} (host : Host Net) (history : HistoryRpc Net).
Implicit Type w : World Net.






End RegistrySteps.


